(** * LED intensity controller: a shallow embedding of the firmware

    The development follows the C sources file by file: [IOs.c] (button
    table and edge detection), [timeDelay.c] (timer registers), [ADC.c]
    (one conversion), [UART2.c] (serial transmitter), [PWM.c] (brightness
    and blink control) and [main.c] (mode state machine and interrupt
    service routines).

    Integers are modelled as [Z] with the wrap-around of the C types
    written out where a conversion happens.  Hardware that the program
    only waits for (ADC conversion done, UART buffer free, wake-up from
    idle) is assumed to answer; the value a conversion delivers and the
    levels of the button pins are inputs of the model. *)

From Stdlib Require Import ZArith Lia Bool Ascii List.
From stdpp Require Import base list.
Import ListNotations.

Local Open Scope Z_scope.

(* ------------------------------------------------------------------ *)
(** ** Machine integers and outcomes *)

Module CInt.

Definition wrap8 (z : Z) : Z := z mod 256.
Definition wrap16 (z : Z) : Z := z mod 65536.
Definition wrap32 (z : Z) : Z := z mod 4294967296.

(** C truth value of an integer, and the [!] operator. *)
Definition truthy (z : Z) : bool := negb (z =? 0).
Definition lnot (z : Z) : Z := if z =? 0 then 1 else 0.

End CInt.
Import CInt.

(** Outcome of code that may divide: the dsPIC/PIC24 core raises a math
    error trap on a division by zero.  [OutOfFuel] only marks the bound
    of a loop model and is shown unreachable where it is used. *)
Inductive result (A : Type) : Type :=
| Ok (a : A)
| MathError
| OutOfFuel.
Arguments Ok {A} a.
Arguments MathError {A}.
Arguments OutOfFuel {A}.

Definition bind {A B} (r : result A) (f : A -> result B) : result B :=
  match r with
  | Ok a => f a
  | MathError => MathError
  | OutOfFuel => OutOfFuel
  end.

Notation "'do' x <- r ; k" := (bind r (fun x => k))
  (at level 10, x name, r at level 100, k at level 200).

(** Division and remainder as the hardware performs them. *)
Definition c_div (a b : Z) : result Z :=
  if b =? 0 then MathError else Ok (a / b).
Definition c_mod (a b : Z) : result Z :=
  if b =? 0 then MathError else Ok (a mod b).

(* ------------------------------------------------------------------ *)
(** ** Data model *)

(** [IOs.h]: ButtonState. *)
Record ButtonState : Type := mkButton {
  pressed : Z;
  newState : Z;
  prevState : Z
}.

#[global] Instance ButtonState_inhabited : Inhabited ButtonState :=
  populate (mkButton 0 1 1).

(** [PWM.h]: PWMControl. *)
Record PWMControl : Type := mkPWM {
  period : Z;
  baseDutyCycle : Z;
  blinkDutyCycle : Z;
  currentDutyCycle : Z;
  blinkEnabled : Z;
  blinkState : Z;
  adcValue : Z
}.

(** [stateMachine.h]: state_t, an enum, so an integer that may hold any
    value. *)
Definition OFF_MODE : Z := 0.
Definition OFF_BLINK : Z := 1.
Definition ON_MODE : Z := 2.
Definition ON_BLINK : Z := 3.
Definition TRANSMIT_UART_ON : Z := 4.
Definition TRANSMIT_UART_BLINK : Z := 5.

(** One 16-bit timer: period register, counter and the TON bit. *)
Record Timer : Type := mkTimer {
  PR : Z;
  TMR : Z;
  TON : Z
}.

(** Levels of the three button pins at the moment they are read. *)
Record PortPins : Type := mkPins {
  RA2 : Z;
  RB4 : Z;
  RA4 : Z
}.

Definition PB1 (p : PortPins) : Z := RA2 p.
Definition PB2 (p : PortPins) : Z := RB4 p.
Definition PB3 (p : PortPins) : Z := RA4 p.

(** Everything the program reads or writes. *)
Record Machine : Type := mkMachine {
  currentState : Z;             (* systemState.currentState *)
  pwmControl : PWMControl;
  buttons : list ButtonState;   (* buttons[3] *)
  pwmCounter : Z;
  buttonFlag : Z;
  LED : Z;                      (* LATBbits.LATB8 *)
  timer1 : Timer;
  timer2 : Timer;
  timer3 : Timer;
  ADON : Z;                     (* AD1CON1bits.ADON *)
  SAMP : Z;                     (* AD1CON1bits.SAMP *)
  U2TX : list ascii             (* characters written to U2TXREG, oldest first *)
}.

Definition set_currentState (v : Z) (m : Machine) : Machine :=
  mkMachine v (pwmControl m) (buttons m) (pwmCounter m) (buttonFlag m) (LED m)
            (timer1 m) (timer2 m) (timer3 m) (ADON m) (SAMP m) (U2TX m).
Definition set_pwmControl (v : PWMControl) (m : Machine) : Machine :=
  mkMachine (currentState m) v (buttons m) (pwmCounter m) (buttonFlag m) (LED m)
            (timer1 m) (timer2 m) (timer3 m) (ADON m) (SAMP m) (U2TX m).
Definition set_buttons (v : list ButtonState) (m : Machine) : Machine :=
  mkMachine (currentState m) (pwmControl m) v (pwmCounter m) (buttonFlag m) (LED m)
            (timer1 m) (timer2 m) (timer3 m) (ADON m) (SAMP m) (U2TX m).
Definition set_pwmCounter (v : Z) (m : Machine) : Machine :=
  mkMachine (currentState m) (pwmControl m) (buttons m) v (buttonFlag m) (LED m)
            (timer1 m) (timer2 m) (timer3 m) (ADON m) (SAMP m) (U2TX m).
Definition set_buttonFlag (v : Z) (m : Machine) : Machine :=
  mkMachine (currentState m) (pwmControl m) (buttons m) (pwmCounter m) v (LED m)
            (timer1 m) (timer2 m) (timer3 m) (ADON m) (SAMP m) (U2TX m).
Definition set_LED (v : Z) (m : Machine) : Machine :=
  mkMachine (currentState m) (pwmControl m) (buttons m) (pwmCounter m) (buttonFlag m) v
            (timer1 m) (timer2 m) (timer3 m) (ADON m) (SAMP m) (U2TX m).
Definition set_timer1 (v : Timer) (m : Machine) : Machine :=
  mkMachine (currentState m) (pwmControl m) (buttons m) (pwmCounter m) (buttonFlag m) (LED m)
            v (timer2 m) (timer3 m) (ADON m) (SAMP m) (U2TX m).
Definition set_timer2 (v : Timer) (m : Machine) : Machine :=
  mkMachine (currentState m) (pwmControl m) (buttons m) (pwmCounter m) (buttonFlag m) (LED m)
            (timer1 m) v (timer3 m) (ADON m) (SAMP m) (U2TX m).
Definition set_timer3 (v : Timer) (m : Machine) : Machine :=
  mkMachine (currentState m) (pwmControl m) (buttons m) (pwmCounter m) (buttonFlag m) (LED m)
            (timer1 m) (timer2 m) v (ADON m) (SAMP m) (U2TX m).
Definition set_ADON (v : Z) (m : Machine) : Machine :=
  mkMachine (currentState m) (pwmControl m) (buttons m) (pwmCounter m) (buttonFlag m) (LED m)
            (timer1 m) (timer2 m) (timer3 m) v (SAMP m) (U2TX m).
Definition set_SAMP (v : Z) (m : Machine) : Machine :=
  mkMachine (currentState m) (pwmControl m) (buttons m) (pwmCounter m) (buttonFlag m) (LED m)
            (timer1 m) (timer2 m) (timer3 m) (ADON m) v (U2TX m).
Definition set_U2TX (v : list ascii) (m : Machine) : Machine :=
  mkMachine (currentState m) (pwmControl m) (buttons m) (pwmCounter m) (buttonFlag m) (LED m)
            (timer1 m) (timer2 m) (timer3 m) (ADON m) (SAMP m) v.

(** Field updates of the PWM record. *)
Definition set_baseDutyCycle (v : Z) (c : PWMControl) : PWMControl :=
  mkPWM (period c) v (blinkDutyCycle c) (currentDutyCycle c) (blinkEnabled c)
        (blinkState c) (adcValue c).
Definition set_blinkDutyCycle (v : Z) (c : PWMControl) : PWMControl :=
  mkPWM (period c) (baseDutyCycle c) v (currentDutyCycle c) (blinkEnabled c)
        (blinkState c) (adcValue c).
Definition set_currentDutyCycle (v : Z) (c : PWMControl) : PWMControl :=
  mkPWM (period c) (baseDutyCycle c) (blinkDutyCycle c) v (blinkEnabled c)
        (blinkState c) (adcValue c).
Definition set_blinkEnabled (v : Z) (c : PWMControl) : PWMControl :=
  mkPWM (period c) (baseDutyCycle c) (blinkDutyCycle c) (currentDutyCycle c) v
        (blinkState c) (adcValue c).
Definition set_blinkState (v : Z) (c : PWMControl) : PWMControl :=
  mkPWM (period c) (baseDutyCycle c) (blinkDutyCycle c) (currentDutyCycle c)
        (blinkEnabled c) v (adcValue c).
Definition set_adcValue (v : Z) (c : PWMControl) : PWMControl :=
  mkPWM (period c) (baseDutyCycle c) (blinkDutyCycle c) (currentDutyCycle c)
        (blinkEnabled c) (blinkState c) v.

(** Apply a PWM-record update inside the machine. *)
Definition upd_pwm (f : PWMControl -> PWMControl) (m : Machine) : Machine :=
  set_pwmControl (f (pwmControl m)) m.

(* ------------------------------------------------------------------ *)
(** ** timeDelay.c *)

Definition startTimer1 (pr_val : Z) (m : Machine) : Machine :=
  let t := timer1 m in
  set_timer1 (mkTimer pr_val (TMR t) 1) m.

Definition stopTimer1 (m : Machine) : Machine :=
  let t := timer1 m in
  set_timer1 (mkTimer (PR t) 0 0) m.

Definition startTimer2 (time_ms : Z) (m : Machine) : Machine :=
  let t := timer2 m in
  set_timer2 (mkTimer (wrap16 (wrap32 (wrap32 time_ms * 500) / 128)) (TMR t) 1) m.

Definition stopTimer2 (m : Machine) : Machine :=
  set_timer2 (mkTimer 0 0 0) m.

(** [Idle()] returns when an interrupt wakes the core; Timer3 is then
    switched off again. *)
Definition delay_ms (time_ms : Z) (m : Machine) : Machine :=
  set_timer3 (mkTimer (wrap16 (wrap32 (wrap32 time_ms * 500) / 16)) 0 0) m.

(* ------------------------------------------------------------------ *)
(** ** ADC.c *)

(** One conversion.  [sample] is the content of ADC1BUF0 once the DONE
    bit is set; the module is switched on for the conversion and off
    afterwards. *)
Definition do_ADC (sample : Z) (m : Machine) : Z * Machine :=
  let m1 := set_SAMP 1 (set_ADON 1 m) in
  let ADCvalue := sample in
  (ADCvalue, set_ADON 0 (set_SAMP 0 m1)).

(* ------------------------------------------------------------------ *)
(** ** UART2.c *)

(** A value written to U2TXREG goes out as one character. *)
Definition tx_char (code : Z) : ascii := ascii_of_N (Z.to_N (wrap8 code)).

Definition char_0 : Z := 48.       (* '0' *)
Definition char_space : Z := 32.   (* ' ' *)
Definition char_nl : Z := 10.      (* newline *)

Definition put (code : Z) (m : Machine) : Machine :=
  set_U2TX (U2TX m ++ [tx_char code]) m.

(** [while (count--)]: one write per count. *)
Fixpoint XmitUART2_loop (character : Z) (count : nat) (m : Machine) : Machine :=
  match count with
  | O => m
  | S count' => XmitUART2_loop character count' (put character m)
  end.

Definition XmitUART2 (character : Z) (count : Z) (m : Machine) : Machine :=
  XmitUART2_loop character (Z.to_nat count) m.

Fixpoint Disp2String (str : list Z) (m : Machine) : Machine :=
  match str with
  | [] => m
  | c :: str' => Disp2String str' (put c m)
  end.

(** First loop of DispNum: [for (i = 1; i < digits; i++) divisor *= 10],
    on a 16-bit divisor. *)
Fixpoint DispNum_divisor (iters : nat) (divisor : Z) : Z :=
  match iters with
  | O => divisor
  | S iters' => DispNum_divisor iters' (wrap16 (divisor * 10))
  end.

(** The do-while loop of DispNum.  A 16-bit divisor is divided by ten in
    every round, so five rounds are the most the loop can make. *)
Fixpoint DispNum_loop (fuel : nat) (number divisor : Z) (m : Machine)
  : result Machine :=
  match fuel with
  | O => OutOfFuel
  | S fuel' =>
      do q <- c_div number divisor;
      let m1 := put (char_0 + q mod 10) m in
      let divisor1 := divisor / 10 in
      if truthy divisor1 then DispNum_loop fuel' number divisor1 m1
      else Ok m1
  end.

Definition DispNum (number digits : Z) (m : Machine) : result Machine :=
  let divisor := DispNum_divisor (Z.to_nat (digits - 1)) 1 in
  DispNum_loop 5 number divisor m.

(* ------------------------------------------------------------------ *)
(** ** PWM.c *)

(** pwmControl as initialised; adcValue has no initialiser and is zero. *)
Definition pwmControl_init : PWMControl := mkPWM 50 0 0 0 0 0 0.

(** The scaling of a sample to a duty cycle:
    [(uint8_t)((uint32_t)adcValue * period / 1023)]. *)
Definition scale_duty (adc per : Z) : Z :=
  wrap8 (wrap32 (wrap32 adc * per) / 1023).

Definition updateBrightness (sample : Z) (overrideDutyCycle : Z) (m : Machine)
  : Machine :=
  let m := startTimer1 (period (pwmControl m)) m in
  let '(v, m) := do_ADC sample m in
  let m := upd_pwm (set_adcValue (wrap16 v)) m in
  let m :=
    if truthy (lnot overrideDutyCycle)
    then upd_pwm (fun c => set_baseDutyCycle (scale_duty (adcValue c) (period c)) c) m
    else upd_pwm (set_baseDutyCycle overrideDutyCycle) m in
  if truthy (lnot (blinkEnabled (pwmControl m)))
  then upd_pwm (fun c => set_currentDutyCycle (baseDutyCycle c) c) m
  else
    let m := upd_pwm (fun c => set_blinkDutyCycle (baseDutyCycle c) c) m in
    upd_pwm (fun c => set_currentDutyCycle
                        (if truthy (blinkState c) then blinkDutyCycle c else 0) c) m.

Definition blink (m : Machine) : Machine :=
  startTimer2 500 (upd_pwm (set_blinkEnabled 1) m).

Definition stopBlink (m : Machine) : Machine :=
  stopTimer2 (upd_pwm (set_blinkEnabled 0) m).

Definition transmitVoltageADC (m : Machine) : result Machine :=
  let c := pwmControl m in
  do q <- c_div (wrap32 (wrap32 (currentDutyCycle c) * 100)) (period c);
  let dutyPercent := wrap8 q in
  do m <- DispNum dutyPercent 3 m;
  let m := XmitUART2 char_space 1 m in
  do m <- DispNum (adcValue (pwmControl m)) 4 m;
  Ok (XmitUART2 char_nl 1 m).

(* ------------------------------------------------------------------ *)
(** ** IOs.c *)

(** buttons[3] as initialised: nothing pressed, all lines released. *)
Definition buttons_init : list ButtonState :=
  [mkButton 0 1 1; mkButton 0 1 1; mkButton 0 1 1].

(** Body of the loop of IOcheck for index [i]. *)
Definition IOcheck_button (pins : PortPins) (btns : list ButtonState) (i : nat)
  : list ButtonState :=
  let b := btns !!! i in
  let level := if (i =? 0)%nat then PB1 pins
               else if (i =? 1)%nat then PB2 pins else PB3 pins in
  let b := mkButton (pressed b) level (prevState b) in
  let b :=
    if negb (newState b =? prevState b) then
      let b := if (prevState b =? 0) && (newState b =? 1)
               then mkButton 1 (newState b) (prevState b)
               else b in
      mkButton (pressed b) (newState b) (newState b)
    else b in
  <[i := b]> btns.

(** IOcheck: the loop over the three buttons; the function returns 0. *)
Definition IOcheck (pins : PortPins) (m : Machine) : Z * Machine :=
  (0, set_buttons (fold_left (IOcheck_button pins) (seq 0 3) (buttons m)) m).

(* ------------------------------------------------------------------ *)
(** ** main.c *)

(** The statements that occur in the cases of handleStateTransition. *)
Inductive Stmt : Type :=
| Sdelay_ms (time_ms : Z)
| SLED (v : Z)
| SstopBlink
| SstopTimer1
| SstopTimer2
| Sblink
| SupdateBrightness_period        (* updateBrightness(pwmControl.period) *)
| SupdateBrightness (override : Z)
| StransmitVoltageADC
| Sassign (state : Z).            (* systemState.currentState = state *)

(** Execution of one statement; [sample] is what an ADC conversion made
    by the statement delivers. *)
Definition exec_stmt (sample : Z) (s : Stmt) (m : Machine) : result Machine :=
  match s with
  | Sdelay_ms t => Ok (delay_ms t m)
  | SLED v => Ok (set_LED v m)
  | SstopBlink => Ok (stopBlink m)
  | SstopTimer1 => Ok (stopTimer1 m)
  | SstopTimer2 => Ok (stopTimer2 m)
  | Sblink => Ok (blink m)
  | SupdateBrightness_period =>
      Ok (updateBrightness sample (period (pwmControl m)) m)
  | SupdateBrightness ov => Ok (updateBrightness sample ov m)
  | StransmitVoltageADC => transmitVoltageADC m
  | Sassign st => Ok (set_currentState st m)
  end.

Fixpoint exec_stmts (sample : Z) (k : list Stmt) (m : Machine) : result Machine :=
  match k with
  | [] => Ok m
  | s :: k' => do m1 <- exec_stmt sample s m; exec_stmts sample k' m1
  end.

(** buttons[i].pressed as a condition. *)
Definition btn (btns : list ButtonState) (i : nat) : bool :=
  truthy (pressed (btns !!! i)).

(** The case of the switch selected by [state], with the if-chains on the
    button flags resolved: the statements in the order they are run. *)
Definition case_body (state : Z) (btns : list ButtonState) : list Stmt :=
  if state =? OFF_MODE then
    [Sdelay_ms 20; SLED 0; SstopBlink; SstopTimer1; SstopTimer2] ++
    (if btn btns 0 then [Sassign ON_MODE]
     else if btn btns 1 then [Sassign OFF_BLINK]
     else [])
  else if state =? OFF_BLINK then
    [Sblink; SupdateBrightness_period] ++
    (if btn btns 1 then [Sassign OFF_MODE; SstopBlink] else [])
  else if state =? ON_MODE then
    [SupdateBrightness 0] ++
    (if btn btns 0 then [Sassign OFF_MODE]
     else if btn btns 1 then [Sassign ON_BLINK]
     else if btn btns 2 then [Sassign TRANSMIT_UART_ON]
     else [])
  else if state =? ON_BLINK then
    [Sblink; SupdateBrightness 0] ++
    (if btn btns 1 then [Sassign ON_MODE; SstopBlink]
     else if btn btns 2 then [Sassign TRANSMIT_UART_BLINK]
     else [])
  else if state =? TRANSMIT_UART_ON then
    [SupdateBrightness 0; StransmitVoltageADC] ++
    (if btn btns 0 then [Sassign OFF_MODE]
     else if btn btns 1 then [Sassign TRANSMIT_UART_BLINK]
     else if btn btns 2 then [Sassign ON_MODE]
     else [])
  else if state =? TRANSMIT_UART_BLINK then
    [Sblink; SupdateBrightness 0; StransmitVoltageADC] ++
    (if btn btns 1 then [Sassign TRANSMIT_UART_ON; SstopBlink]
     else if btn btns 2 then [Sassign ON_BLINK]
     else [])
  else
    [Sassign OFF_MODE].

Definition handleStateTransition (sample : Z) (m : Machine) : result Machine :=
  exec_stmts sample (case_body (currentState m) (buttons m)) m.

(** Timer 1 interrupt: one tick of the PWM generator. *)
Definition T1Interrupt (m : Machine) : result Machine :=
  do r <- c_mod (pwmCounter m + 1) (period (pwmControl m));
  let m := set_pwmCounter (wrap8 r) m in
  let m := upd_pwm (fun c => set_currentDutyCycle
                       (if truthy (blinkEnabled c) then currentDutyCycle c
                        else baseDutyCycle c) c) m in
  Ok (set_LED (if pwmCounter m <? currentDutyCycle (pwmControl m) then 1 else 0) m).

(** Timer 2 interrupt: one tick of the blink modulator. *)
Definition T2Interrupt (m : Machine) : Machine :=
  if truthy (blinkEnabled (pwmControl m)) then
    let m := upd_pwm (fun c => set_blinkState (lnot (blinkState c)) c) m in
    upd_pwm (fun c => set_currentDutyCycle
                        (if truthy (blinkState c) then blinkDutyCycle c else 0) c) m
  else m.

Definition T3Interrupt (m : Machine) : Machine := m.

(** Change notification interrupt. *)
Definition CNInterrupt (m : Machine) : Machine := set_buttonFlag 1 m.

(** The clearing loop at the end of the main loop body. *)
Definition clear_pressed (m : Machine) : Machine :=
  set_buttons
    (fold_left (fun bs i => let b := bs !!! i in
                            <[i := mkButton 0 (newState b) (prevState b)]> bs)
               (seq 0 3) (buttons m)) m.

(** [if (buttonFlag) buttonFlag = IOcheck();] *)
Definition poll_buttons (pins : PortPins) (m : Machine) : Machine :=
  if truthy (buttonFlag m) then
    let '(r, m1) := IOcheck pins m in set_buttonFlag r m1
  else m.

(** One pass of the body of [while (1)] in main. *)
Definition main_pass (sample : Z) (pins : PortPins) (m : Machine) : result Machine :=
  do m1 <- handleStateTransition sample (poll_buttons pins m);
  Ok (clear_pressed m1).

(** The clear-screen sequence that init sends: ESC [ 2 J ESC [ H. *)
Definition clear_screen : list Z := [27; 91; 50; 74; 27; 91; 72].

(** The machine when main enters its loop: globals as initialised, timers
    and ADC off, the clear-screen sequence sent. *)
Definition boot_machine : Machine :=
  Disp2String clear_screen
    (mkMachine OFF_MODE pwmControl_init buttons_init 0 0 0
               (mkTimer 65535 0 0) (mkTimer 65535 0 0) (mkTimer 65535 0 0)
               0 0 []).

(* ------------------------------------------------------------------ *)
(** ** Execution at the granularity of statements and interrupts *)

(** Where the main program stands: at the top of the loop, or inside
    handleStateTransition with the statements [k] still to run (the
    clearing of the flags follows when [k] is empty). *)
Inductive PC : Type :=
| LoopTop
| Handling (k : list Stmt).

Definition Config : Type := Machine * PC.

(** What can happen next: the main program takes its next step, or one of
    the interrupt service routines runs.  Interrupts are allowed at every
    point, whether or not their timer is switched on, which only adds
    behaviours. *)
Inductive Event : Type :=
| EvMain (sample : Z) (pins : PortPins)
| EvT1
| EvT2
| EvT3
| EvCN.

Definition step (e : Event) (c : Config) : result Config :=
  let '(m, pc) := c in
  match e with
  | EvMain sample pins =>
      match pc with
      | LoopTop =>
          let m1 := poll_buttons pins m in
          Ok (m1, Handling (case_body (currentState m1) (buttons m1)))
      | Handling [] => Ok (clear_pressed m, LoopTop)
      | Handling (s :: k) => do m1 <- exec_stmt sample s m; Ok (m1, Handling k)
      end
  | EvT1 => do m1 <- T1Interrupt m; Ok (m1, pc)
  | EvT2 => Ok (T2Interrupt m, pc)
  | EvT3 => Ok (T3Interrupt m, pc)
  | EvCN => Ok (CNInterrupt m, pc)
  end.

Fixpoint run (es : list Event) (c : Config) : result Config :=
  match es with
  | [] => Ok c
  | e :: es' => do c1 <- step e c; run es' c1
  end.

(** The inputs the hardware can deliver: a 10-bit sample, pin levels 0/1. *)
Definition is_bit (z : Z) : bool := (z =? 0) || (z =? 1).

Definition valid_event (e : Event) : bool :=
  match e with
  | EvMain sample pins =>
      (0 <=? sample) && (sample <=? 1023)
      && is_bit (RA2 pins) && is_bit (RB4 pins) && is_bit (RA4 pins)
  | _ => true
  end.

Inductive Reachable : Config -> Prop :=
| Reachable_boot : Reachable (boot_machine, LoopTop)
| Reachable_step e c c' :
    Reachable c -> valid_event e = true -> step e c = Ok c' -> Reachable c'.

(* ------------------------------------------------------------------ *)
(** ** The tables and formats of the specification *)

(** The six modes of section 3. *)
Inductive Mode : Type :=
| Off | OffBlink | On | OnBlink | TransmitOn | TransmitBlink.

(** The transition table of section 4.5, priority PB1 > PB2 > PB3. *)
Definition spec_table_next (md : Mode) (pb1 pb2 pb3 : bool) : Mode :=
  match md with
  | Off => if pb1 then On else if pb2 then OffBlink else Off
  | OffBlink => if pb2 then Off else OffBlink
  | On => if pb1 then Off else if pb2 then OnBlink
          else if pb3 then TransmitOn else On
  | OnBlink => if pb2 then On else if pb3 then TransmitBlink else OnBlink
  | TransmitOn => if pb1 then Off else if pb2 then TransmitBlink
                  else if pb3 then On else TransmitOn
  | TransmitBlink => if pb2 then TransmitOn else if pb3 then OnBlink
                     else TransmitBlink
  end.

Definition Mode_to_Z (md : Mode) : Z :=
  match md with
  | Off => OFF_MODE
  | OffBlink => OFF_BLINK
  | On => ON_MODE
  | OnBlink => ON_BLINK
  | TransmitOn => TRANSMIT_UART_ON
  | TransmitBlink => TRANSMIT_UART_BLINK
  end.

Definition Mode_of_Z (z : Z) : option Mode :=
  if z =? OFF_MODE then Some Off
  else if z =? OFF_BLINK then Some OffBlink
  else if z =? ON_MODE then Some On
  else if z =? ON_BLINK then Some OnBlink
  else if z =? TRANSMIT_UART_ON then Some TransmitOn
  else if z =? TRANSMIT_UART_BLINK then Some TransmitBlink
  else None.

(** The mode after a pass according to the specification: the table for a
    defined mode, Off for any other value. *)
Definition spec_next_state (state : Z) (pb1 pb2 pb3 : bool) : Z :=
  match Mode_of_Z state with
  | Some md => Mode_to_Z (spec_table_next md pb1 pb2 pb3)
  | None => OFF_MODE
  end.

(** Number of assignments to the mode in a statement list. *)
Definition is_assign (s : Stmt) : bool :=
  match s with Sassign _ => true | _ => false end.

Definition transitions (k : list Stmt) : nat :=
  length (List.filter is_assign k).

(** A decimal field of fixed width: the [width] low decimal digits of
    [n], most significant first, padded with zeros. *)
Fixpoint dec_field (width : nat) (n : Z) : list ascii :=
  match width with
  | O => []
  | S w => dec_field w (n / 10) ++ [tx_char (char_0 + n mod 10)]
  end.

(** The telemetry line of section 6. *)
Definition telemetry_line (dutyPercent lastSample : Z) : list ascii :=
  dec_field 3 dutyPercent ++ [tx_char char_space]
  ++ dec_field 4 lastSample ++ [tx_char char_nl].

(** The override argument as the specification reads it: 0 stands for
    "no override" (PWM.h: "0 for ADC control"). *)
Definition override_of (overrideDutyCycle : Z) : option Z :=
  if overrideDutyCycle =? 0 then None else Some overrideDutyCycle.

(** Invariants of the PWM record (section 3). *)
Definition duty_bounded (c : PWMControl) : Prop :=
  0 <= currentDutyCycle c <= period c.

Definition duty_consistent (c : PWMControl) : Prop :=
  (blinkEnabled c = 0 -> currentDutyCycle c = baseDutyCycle c) /\
  (blinkEnabled c <> 0 ->
   currentDutyCycle c = blinkDutyCycle c \/ currentDutyCycle c = 0).

Definition PwmInvariant (c : PWMControl) : Prop :=
  duty_bounded c /\ duty_consistent c.

(** What the reachable PWM records have in common. *)
Definition pwm_ok (c : PWMControl) : Prop :=
  period c = 50 /\
  0 <= baseDutyCycle c <= 50 /\
  0 <= blinkDutyCycle c <= 50 /\
  0 <= currentDutyCycle c <= 50.

(** The statements of handleStateTransition pass 0 or the period as the
    override. *)
Definition stmt_ok (s : Stmt) : bool :=
  match s with
  | SupdateBrightness ov => ov =? 0
  | _ => true
  end.

Definition pc_ok (pc : PC) : bool :=
  match pc with
  | LoopTop => true
  | Handling k => forallb stmt_ok k
  end.

(** Everything of the machine that is not the PWM record. *)
Definition same_outside_pwm (m m' : Machine) : Prop :=
  currentState m' = currentState m /\ buttons m' = buttons m /\
  pwmCounter m' = pwmCounter m /\ buttonFlag m' = buttonFlag m /\
  LED m' = LED m /\
  timer1 m' = timer1 m /\ timer2 m' = timer2 m /\ timer3 m' = timer3 m /\
  ADON m' = ADON m /\ SAMP m' = SAMP m /\ U2TX m' = U2TX m.

(** Button sampling experiments (section 8): button [i] is driven with the
    given level, the other two lines stay released. *)
Definition released : Z := 1.
Definition pushed : Z := 0.

Definition pins_for (i : nat) (level : Z) : PortPins :=
  mkPins (if (i =? 0)%nat then level else released)
         (if (i =? 1)%nat then level else released)
         (if (i =? 2)%nat then level else released).

(** The condition under which IOcheck runs [buttons[i].pressed = 1]. *)
Definition sets_pressed (b : ButtonState) (level : Z) : bool :=
  negb (level =? prevState b) && ((prevState b =? 0) && (level =? 1)).

(** Successive calls of IOcheck, one per level: for every call, whether it
    set the flag of button [i], and the flag after the call. *)
Fixpoint IOcheck_calls (i : nat) (levels : list Z) (m : Machine)
  : list (bool * Z) :=
  match levels with
  | [] => []
  | level :: levels' =>
      let m1 := snd (IOcheck (pins_for i level) m) in
      (sets_pressed (buttons m !!! i) level, pressed (buttons m1 !!! i))
      :: IOcheck_calls i levels' m1
  end.

(** Numbers (from 1) of the entries of a list that satisfy [f]. *)
Fixpoint positions {A} (f : A -> bool) (from : nat) (l : list A) : list nat :=
  match l with
  | [] => []
  | x :: l' => (if f x then [from] else []) ++ positions f (S from) l'
  end.

(** The calls at which the flag of button [i] is set. *)
Definition event_calls (i : nat) (levels : list Z) (m : Machine) : list nat :=
  positions fst 1%nat (IOcheck_calls i levels m).

(** The release edges of a level sequence, as section 4.1 words them: the
    samples (numbered from [from]) at which the line is released while
    the sample before it, or [prev] for the first one, was pressed. *)
Fixpoint release_edges (prev : Z) (from : nat) (levels : list Z) : list nat :=
  match levels with
  | [] => []
  | level :: levels' =>
      (if (prev =? pushed) && (level =? released) then [from] else [])
      ++ release_edges level (S from) levels'
  end.

(* ------------------------------------------------------------------ *)
(** ** UART2.c: the remaining display functions *)

(** HEX_CHARS, the characters 0-9 and A-F. *)
Definition HEX_CHARS : list Z :=
  [48; 49; 50; 51; 52; 53; 54; 55; 56; 57; 65; 66; 67; 68; 69; 70].

Definition char_x : Z := 120.      (* 'x' *)

(** The sending loop shared by the Disp2 functions: every element of the
    buffer is written to U2TXREG in order. *)
Definition send (output : list Z) (m : Machine) : Machine :=
  fold_left (fun m c => put c m) output m.

(** One round of the conversion loop of Disp2Hex and Disp2Hex32:
    [output[top - i] = HEX_CHARS[value & 0xF]; value >>= 4]. *)
Definition hex_round (top : nat) (st : list Z * Z) (i : nat) : list Z * Z :=
  let '(output, value) := st in
  (<[(top - i)%nat := HEX_CHARS !!! Z.to_nat (Z.land value 15)]> output,
   Z.shiftr value 4).

Definition Disp2Hex (value : Z) (m : Machine) : Machine :=
  let output := [char_space; char_0; char_x; 0; 0; 0] in
  let '(output, _) := fold_left (hex_round 5) (seq 0 3) (output, value) in
  let output := <[5%nat := char_space]> output in
  send output m.

Definition Disp2Hex32 (value : Z) (m : Machine) : Machine :=
  let output := [char_space; char_0; char_x; 0; 0; 0; 0; 0; 0; 0; 0] in
  let '(output, _) := fold_left (hex_round 10) (seq 0 8) (output, value) in
  let output := <[10%nat := char_space]> output in
  send output m.

(** One round of the conversion loop of Disp2Dec:
    [output[i] = '0' + value / divisor; value %= divisor; divisor /= 10]. *)
Definition dec_round (st : list Z * Z * Z) (i : nat) : list Z * Z * Z :=
  let '(output, value, divisor) := st in
  (<[i := wrap8 (char_0 + value / divisor)]> output,
   value mod divisor, divisor / 10).

Definition Disp2Dec (value : Z) (m : Machine) : Machine :=
  let output := [char_space; 0; 0; 0; 0; 0; 0] in
  let '(output, _, _) := fold_left dec_round (seq 1 5) (output, value, 10000) in
  let output := <[6%nat := char_space]> output in
  send output m.

(** InitUART2: the baud-rate divisor is read from a table of three
    entries at index [COSC & 0x7]; [None] is a read past its end. *)
Definition BAUD_RATES : list Z := [103; 12; 12].

Definition InitUART2_U2BRG (COSC : Z) : option Z :=
  BAUD_RATES !! Z.to_nat (Z.land COSC 7).

(** ** Reading the output back *)

(** The digit a character stands for, and the number a run of decimal
    digits stands for. *)
Definition digit_value (c : ascii) : Z := Z.of_N (N_of_ascii c) - char_0.

Definition field_value (field : list ascii) : Z :=
  fold_left (fun acc c => acc * 10 + digit_value c) field 0.

(** ** Runs of the PWM generator *)

(** [n] ticks of Timer 1 in a row: the LED level after each tick, and the
    machine at the end. *)
Fixpoint T1_ticks (n : nat) (m : Machine) : result (list Z * Machine) :=
  match n with
  | O => Ok ([], m)
  | S n' =>
      do m1 <- T1Interrupt m;
      do r <- T1_ticks n' m1;
      Ok (LED m1 :: fst r, snd r)
  end.

(** Number of ticks with the LED driven high. *)
Definition high_ticks (leds : list Z) : nat := count_occ Z.eq_dec leds 1.

(** ** Mode and blink bookkeeping *)

Definition is_blink_mode (state : Z) : bool :=
  (state =? OFF_BLINK) || (state =? ON_BLINK) || (state =? TRANSMIT_UART_BLINK).

Definition is_transmit_mode (state : Z) : bool :=
  (state =? TRANSMIT_UART_ON) || (state =? TRANSMIT_UART_BLINK).

Definition is_mode (state : Z) : bool := (0 <=? state) && (state <=? 5).

(** The part of the machine the mode logic keeps in step: the mode, the
    blink flag and the TON bit of Timer2. *)
Definition Blinkview : Type := Z * Z * Z.

Definition blink_view (m : Machine) : Blinkview :=
  (currentState m, blinkEnabled (pwmControl m), TON (timer2 m)).

(** What a statement does to that part. *)
Definition view_after (v : Blinkview) (s : Stmt) : Blinkview :=
  let '(st, en, ton) := v in
  match s with
  | Sblink => (st, 1, 1)
  | SstopBlink => (st, 0, 0)
  | SstopTimer2 => (st, en, 0)
  | Sassign st' => (st', en, ton)
  | _ => v
  end.

(** At the top of the loop: a defined mode, blink enabled only in a blink
    mode, Timer2 on exactly when blink is enabled. *)
Definition view_ok (v : Blinkview) : bool :=
  let '(st, en, ton) := v in
  is_mode st && (en =? ton) && ((en =? 0) || ((en =? 1) && is_blink_mode st)).

(** Inside handleStateTransition, at every statement: a defined mode and
    Timer2 in step with the blink flag, which is 0 or 1. *)
Definition view_mid (v : Blinkview) : bool :=
  let '(st, en, ton) := v in
  is_mode st && (en =? ton) && is_bit en.

(** The statements still to run keep that up and end in a state that is
    good for the top of the loop. *)
Fixpoint path_ok (k : list Stmt) (v : Blinkview) : bool :=
  match k with
  | [] => view_ok v
  | s :: k' => view_mid v && path_ok k' (view_after v s)
  end.

Definition config_ok (c : Config) : bool :=
  let '(m, pc) := c in
  match pc with
  | LoopTop => view_ok (blink_view m)
  | Handling k => path_ok k (blink_view m)
  end.

(** The statement that transmits. *)
Definition is_transmit_stmt (s : Stmt) : bool :=
  match s with
  | StransmitVoltageADC => true
  | _ => false
  end.

(** The button table as the hardware can make it: three entries of bits. *)
Definition button_ok (b : ButtonState) : bool :=
  is_bit (pressed b) && is_bit (newState b) && is_bit (prevState b).

Definition buttons_ok (btns : list ButtonState) : bool :=
  (length btns =? 3)%nat && forallb button_ok btns.

(** The pin read for button [i] in IOcheck. *)
Definition pin_level (pins : PortPins) (i : nat) : Z :=
  if (i =? 0)%nat then PB1 pins
  else if (i =? 1)%nat then PB2 pins else PB3 pins.

Definition pins_ok (pins : PortPins) : bool :=
  is_bit (RA2 pins) && is_bit (RB4 pins) && is_bit (RA4 pins).

(** One button after a sample at [level], as IOcheck leaves it. *)
Definition sampled (b : ButtonState) (level : Z) : ButtonState :=
  mkButton (if (prevState b =? 0) && (level =? 1) then 1 else pressed b)
           level level.

(** The duty cycle the PWM generator renders: the base duty with blink
    disabled, otherwise what the blink modulator set last. *)
Definition duty_in_force (c : PWMControl) : Z :=
  if blinkEnabled c =? 0 then baseDutyCycle c else currentDutyCycle c.

(** The LED level for a counter value. *)
Definition led_level (duty counter : Z) : Z :=
  if counter <? duty then 1 else 0.

(** The button table, the flag and the counter as every reachable state
    has them. *)
Definition io_ok (m : Machine) : Prop :=
  buttons_ok (buttons m) = true /\
  is_bit (buttonFlag m) = true /\
  0 <= pwmCounter m < 50.

(** Steps of the main program among a list of events. *)
Definition is_main (e : Event) : bool :=
  match e with
  | EvMain _ _ => true
  | _ => false
  end.

Definition count_main (es : list Event) : nat :=
  length (List.filter is_main es).

(** The statements every pass in mode Off runs before it looks at the
    buttons. *)
Definition off_body : list Stmt :=
  [Sdelay_ms 20; SLED 0; SstopBlink; SstopTimer1; SstopTimer2].

(** What neither an interrupt handler nor a statement of [off_body]
    writes. *)
Definition settled (m : Machine)
  : Z * list ascii * Z * Z * (Z * Z * Z * Z) :=
  (currentState m, U2TX m, ADON m, SAMP m,
   (period (pwmControl m), baseDutyCycle (pwmControl m),
    blinkDutyCycle (pwmControl m), adcValue (pwmControl m))).

(** The blink flag and the TON bits of Timer1 and Timer2. *)
Definition switches (m : Machine) : Z * Z * Z :=
  (blinkEnabled (pwmControl m), TON (timer1 m), TON (timer2 m)).

(** The switches once the first [j] statements of [off_body] have run. *)
Definition switched_off (j : nat) (m : Machine) : Prop :=
  ((3 <= j)%nat -> blinkEnabled (pwmControl m) = 0 /\ TON (timer2 m) = 0) /\
  ((4 <= j)%nat -> TON (timer1 m) = 0).

(* ------------------------------------------------------------------ *)
(** * Facts *)

(** ** Machine integers *)

Lemma wrap8_small z : 0 <= z < 256 -> wrap8 z = z.
Proof. intros H. unfold wrap8. now apply Z.mod_small. Qed.

Lemma wrap16_small z : 0 <= z < 65536 -> wrap16 z = z.
Proof. intros H. unfold wrap16. now apply Z.mod_small. Qed.

Lemma wrap32_small z : 0 <= z < 4294967296 -> wrap32 z = z.
Proof. intros H. unfold wrap32. now apply Z.mod_small. Qed.

Lemma wrap16_range z : 0 <= wrap16 z < 65536.
Proof. unfold wrap16. apply Z.mod_pos_bound. lia. Qed.

Lemma truthy_true z : z <> 0 -> truthy z = true.
Proof.
  intros H. unfold truthy.
  destruct (Z.eqb_spec z 0); [contradiction | reflexivity].
Qed.

Lemma truthy_false z : z = 0 -> truthy z = false.
Proof. intros ->. reflexivity. Qed.

Lemma truthy_lnot z : truthy (lnot z) = (z =? 0).
Proof. unfold truthy, lnot. destruct (z =? 0); reflexivity. Qed.

(** ** Scaling of a sample *)

Lemma scale_bound sample per :
  0 < per -> 0 <= sample <= 1023 -> 0 <= sample * per / 1023 <= per.
Proof.
  intros Hp Hs. split.
  - apply Z.div_pos; nia.
  - apply Z.div_le_upper_bound; nia.
Qed.

Lemma scale_duty_exact sample per :
  0 <= per < 256 -> 0 <= sample <= 1023 ->
  scale_duty sample per = sample * per / 1023.
Proof.
  intros Hp Hs. unfold scale_duty.
  rewrite (wrap32_small sample) by lia.
  rewrite (wrap32_small (sample * per)) by nia.
  apply wrap8_small. split.
  - apply Z.div_pos; nia.
  - apply Z.div_lt_upper_bound; nia.
Qed.

Lemma scale_duty_range sample per :
  0 <= per < 256 -> 0 <= sample <= 1023 ->
  0 <= scale_duty sample per <= per.
Proof.
  intros Hp Hs. rewrite scale_duty_exact by assumption.
  destruct (Z.eq_dec per 0) as [-> | Hne].
  - rewrite Z.mul_0_r, Z.div_0_l by lia. lia.
  - apply scale_bound; lia.
Qed.

(** ** PWM.c: the PWM record after each operation *)

Lemma updateBrightness_pwm sample ov m :
  pwmControl (updateBrightness sample ov m) =
  let c := pwmControl m in
  let base := if ov =? 0 then scale_duty (wrap16 sample) (period c) else ov in
  if blinkEnabled c =? 0
  then mkPWM (period c) base (blinkDutyCycle c) base
             (blinkEnabled c) (blinkState c) (wrap16 sample)
  else mkPWM (period c) base base (if blinkState c =? 0 then 0 else base)
             (blinkEnabled c) (blinkState c) (wrap16 sample).
Proof.
  destruct m as [st [per base bd cur en ph adc] bs cnt bf led t1 t2 t3 on sa tx].
  unfold updateBrightness, do_ADC, startTimer1, upd_pwm.
  cbn -[Z.eqb scale_duty wrap16 truthy lnot].
  rewrite !truthy_lnot.
  destruct (ov =? 0); cbn -[Z.eqb scale_duty wrap16 truthy lnot];
    rewrite ?truthy_lnot;
    destruct (en =? 0); cbn -[Z.eqb scale_duty wrap16 truthy lnot];
    try reflexivity;
    unfold truthy; destruct (ph =? 0); reflexivity.
Qed.


Lemma stopBlink_pwm m :
  pwmControl (stopBlink m) = set_blinkEnabled 0 (pwmControl m).
Proof. reflexivity. Qed.

Lemma T2Interrupt_pwm m :
  pwmControl (T2Interrupt m) =
  let c := pwmControl m in
  if blinkEnabled c =? 0 then c
  else mkPWM (period c) (baseDutyCycle c) (blinkDutyCycle c)
             (if blinkState c =? 0 then blinkDutyCycle c else 0)
             (blinkEnabled c) (lnot (blinkState c)) (adcValue c).
Proof.
  destruct m as [st [per base bd cur en ph adc] bs cnt bf led t1 t2 t3 on sa tx].
  unfold T2Interrupt, upd_pwm, truthy, lnot; cbn -[Z.eqb].
  destruct (en =? 0); cbn -[Z.eqb]; [reflexivity |].
  destruct (ph =? 0); reflexivity.
Qed.

Lemma T1Interrupt_pwm m :
  period (pwmControl m) <> 0 ->
  exists m', T1Interrupt m = Ok m' /\
    pwmControl m' =
    set_currentDutyCycle
      (if blinkEnabled (pwmControl m) =? 0 then baseDutyCycle (pwmControl m)
       else currentDutyCycle (pwmControl m)) (pwmControl m).
Proof.
  intros Hp.
  destruct m as [st [per base bd cur en ph adc] bs cnt bf led t1 t2 t3 on sa tx].
  cbn in Hp. unfold T1Interrupt, c_mod; cbn -[Z.eqb Z.modulo].
  destruct (Z.eqb_spec per 0) as [-> | _]; [contradiction |].
  cbn -[Z.eqb Z.modulo Z.ltb wrap8].
  eexists; split; [reflexivity |]. cbn -[Z.eqb Z.modulo Z.ltb wrap8].
  unfold truthy. destruct (en =? 0); reflexivity.
Qed.

(* ------------------------------------------------------------------ *)
(** * Brightness controller (PWM.c) *)

(** C4. For every period > 0 and every sample in [0,1023] the duty
    floor(sample * period / 1023) lies in [0, period]; for a period that
    fits the 8-bit field the expression of updateBrightness computes
    exactly this value, and the sensor path of updateBrightness stores it
    in baseDutyCycle; sample 512 with period 50 gives 25. *)
Theorem C4_sensor_duty_in_range (per sample : Z) :
  0 < per -> 0 <= sample <= 1023 ->
  0 <= sample * per / 1023 <= per /\
  (per < 256 ->
   scale_duty sample per = sample * per / 1023 /\
   forall m, period (pwmControl m) = per ->
     baseDutyCycle (pwmControl (updateBrightness sample 0 m))
     = sample * per / 1023) /\
  scale_duty 512 50 = 25.
Proof.
  intros Hp Hs. split; [apply scale_bound; assumption |].
  split; [| reflexivity].
  intros Hlt. split; [apply scale_duty_exact; lia |].
  intros m Hm. rewrite updateBrightness_pwm. cbn zeta. rewrite Hm.
  change (0 =? 0) with true. cbv iota.
  rewrite (wrap16_small sample) by lia.
  destruct (blinkEnabled (pwmControl m) =? 0); cbn [baseDutyCycle];
    apply scale_duty_exact; lia.
Qed.

Lemma C4_sensor_duty_in_range_witness :
  0 <= 512 * 50 / 1023 <= 50 /\
  (50 < 256 ->
   scale_duty 512 50 = 512 * 50 / 1023 /\
   forall m, period (pwmControl m) = 50 ->
     baseDutyCycle (pwmControl (updateBrightness 512 0 m))
     = 512 * 50 / 1023) /\
  scale_duty 512 50 = 25.
Proof. apply (C4_sensor_duty_in_range 50 512); lia. Defined.

(** C3. updateBrightness stores the fresh sample in adcValue; with the
    override absent (argument 0) baseDutyCycle becomes
    floor(adcValue * period / 1023), with an override present it becomes
    the override; then, with blink enabled, blinkDutyCycle is set to
    baseDutyCycle, otherwise currentDutyCycle is set to baseDutyCycle. *)
Theorem C3_updateBrightness_effect (sample ov : Z) (m : Machine) :
  0 <= sample <= 1023 ->
  0 <= period (pwmControl m) < 256 ->
  let c := pwmControl m in
  let c' := pwmControl (updateBrightness sample ov m) in
  adcValue c' = sample /\
  baseDutyCycle c' =
    match override_of ov with
    | None => adcValue c' * period c / 1023
    | Some v => v
    end /\
  (blinkEnabled c <> 0 -> blinkDutyCycle c' = baseDutyCycle c') /\
  (blinkEnabled c = 0 -> currentDutyCycle c' = baseDutyCycle c').
Proof.
  intros Hs Hp c c'. subst c'. rewrite updateBrightness_pwm. fold c. cbn zeta.
  rewrite (wrap16_small sample) by lia. unfold override_of.
  destruct (Z.eqb_spec (blinkEnabled c) 0) as [Hen | Hen];
    cbn [adcValue baseDutyCycle blinkDutyCycle currentDutyCycle];
    (split; [reflexivity |]);
    (split; [destruct (ov =? 0); [apply scale_duty_exact; assumption | reflexivity] |]);
    split; intros H; try reflexivity; contradiction.
Qed.

Lemma C3_updateBrightness_effect_witness :
  let c := pwmControl boot_machine in
  let c' := pwmControl (updateBrightness 512 0 boot_machine) in
  adcValue c' = 512 /\
  baseDutyCycle c' =
    match override_of 0 with
    | None => adcValue c' * period c / 1023
    | Some v => v
    end /\
  (blinkEnabled c <> 0 -> blinkDutyCycle c' = baseDutyCycle c') /\
  (blinkEnabled c = 0 -> currentDutyCycle c' = baseDutyCycle c').
Proof.
  apply (C3_updateBrightness_effect 512 0 boot_machine); vm_compute;
    split; congruence.
Defined.

(** C8, as the code has it. updateBrightness returns nothing and, besides
    the PWM record, also starts Timer1 (PR1 := period, TON := 1) and runs
    one conversion that leaves the ADC switched off; the mode, the button
    table, the PWM counter, the button flag, the LED, Timer2, Timer3 and
    the serial output are unchanged. *)
Theorem C8_updateBrightness_frame (sample ov : Z) (m : Machine) :
  let m' := updateBrightness sample ov m in
  timer1 m' = mkTimer (period (pwmControl m)) (TMR (timer1 m)) 1 /\
  ADON m' = 0 /\ SAMP m' = 0 /\
  currentState m' = currentState m /\ buttons m' = buttons m /\
  pwmCounter m' = pwmCounter m /\ buttonFlag m' = buttonFlag m /\
  LED m' = LED m /\ timer2 m' = timer2 m /\ timer3 m' = timer3 m /\
  U2TX m' = U2TX m.
Proof.
  destruct m as [st [per base bd cur en ph adc] bs cnt bf led t1 t2 t3 on sa tx].
  unfold updateBrightness, do_ADC, startTimer1, upd_pwm.
  cbn -[Z.eqb scale_duty wrap16 truthy lnot].
  destruct (truthy (lnot ov)); cbn -[Z.eqb scale_duty wrap16 truthy lnot];
    destruct (truthy (lnot en)); cbn -[Z.eqb scale_duty wrap16 truthy lnot];
    repeat split.
Qed.

(** C8 as stated fails: at boot Timer1 is off, after updateBrightness it
    is on and its period register is loaded. *)
Lemma C8_counterexample :
  ~ same_outside_pwm boot_machine (updateBrightness 512 0 boot_machine).
Proof.
  unfold same_outside_pwm. intros (_ & _ & _ & _ & _ & Ht1 & _).
  vm_compute in Ht1. discriminate Ht1.
Qed.

(* ------------------------------------------------------------------ *)
(** * Blink modulator (PWM.c, Timer 1 and Timer 2 interrupts) *)

(** C6. From any state with blink enabled, stopBlink followed by one
    Timer 1 tick leaves currentDutyCycle equal to baseDutyCycle. *)
Theorem C6_stopBlink_then_tick (m : Machine) :
  blinkEnabled (pwmControl m) <> 0 ->
  period (pwmControl m) <> 0 ->
  exists m', T1Interrupt (stopBlink m) = Ok m' /\
    currentDutyCycle (pwmControl m') = baseDutyCycle (pwmControl m') /\
    baseDutyCycle (pwmControl m') = baseDutyCycle (pwmControl m).
Proof.
  intros _ Hp.
  destruct (T1Interrupt_pwm (stopBlink m)) as (m' & Hrun & Hpwm).
  - rewrite stopBlink_pwm. exact Hp.
  - exists m'. split; [exact Hrun |]. rewrite Hpwm, stopBlink_pwm.
    split; reflexivity.
Qed.

(** A state in the dark half of a blink cycle, used to exercise C6. *)
Definition blinking_dark : Machine :=
  T2Interrupt (T2Interrupt (updateBrightness 512 0 (blink boot_machine))).

Lemma C6_stopBlink_then_tick_witness :
  exists m', T1Interrupt (stopBlink blinking_dark) = Ok m' /\
    currentDutyCycle (pwmControl m') = baseDutyCycle (pwmControl m') /\
    baseDutyCycle (pwmControl m') = baseDutyCycle (pwmControl blinking_dark).
Proof.
  apply (C6_stopBlink_then_tick blinking_dark); vm_compute; congruence.
Defined.

(** C10. stopBlink clears blinkEnabled and stops Timer2 and changes
    nothing else: the other fields of the PWM record and the rest of the
    machine keep their values, so currentDutyCycle stays at its last
    blink-phase value; a following blink() finds the retained blinkState,
    and the first Timer 2 tick after it toggles from there. *)
Theorem C10_stopBlink_frame (m : Machine) :
  let c := pwmControl m in
  let m' := stopBlink m in
  let c' := pwmControl m' in
  blinkEnabled c' = 0 /\
  period c' = period c /\ baseDutyCycle c' = baseDutyCycle c /\
  blinkDutyCycle c' = blinkDutyCycle c /\
  currentDutyCycle c' = currentDutyCycle c /\
  blinkState c' = blinkState c /\ adcValue c' = adcValue c /\
  timer2 m' = mkTimer 0 0 0 /\
  currentState m' = currentState m /\ buttons m' = buttons m /\
  pwmCounter m' = pwmCounter m /\ buttonFlag m' = buttonFlag m /\
  LED m' = LED m /\ timer1 m' = timer1 m /\ timer3 m' = timer3 m /\
  ADON m' = ADON m /\ SAMP m' = SAMP m /\ U2TX m' = U2TX m /\
  blinkState (pwmControl (blink m')) = blinkState c /\
  currentDutyCycle (pwmControl (blink m')) = currentDutyCycle c /\
  blinkState (pwmControl (T2Interrupt (blink m'))) = lnot (blinkState c).
Proof.
  destruct m as [st [per base bd cur en ph adc] bs cnt bf led t1 t2 t3 on sa tx].
  cbn -[T2Interrupt blink]. repeat (split; [reflexivity |]).
  rewrite T2Interrupt_pwm. reflexivity.
Qed.

(** The retained value can be 0 while baseDutyCycle is not: stopping the
    blink in the dark half of the cycle. *)
Example stopBlink_keeps_dark_duty :
  currentDutyCycle (pwmControl (stopBlink blinking_dark)) = 0 /\
  baseDutyCycle (pwmControl (stopBlink blinking_dark)) = 25.
Proof. split; reflexivity. Qed.

(* ------------------------------------------------------------------ *)
(** * Serial transmitter (UART2.c) *)

Lemma set_U2TX_twice v w m : set_U2TX v (set_U2TX w m) = set_U2TX v m.
Proof. destruct m; reflexivity. Qed.

Lemma put_U2TX code m : put code m = set_U2TX (U2TX m ++ [tx_char code]) m.
Proof. reflexivity. Qed.

Lemma put_after_set code l m :
  put code (set_U2TX l m) = set_U2TX (l ++ [tx_char code]) m.
Proof. destruct m; reflexivity. Qed.

(** The do-while loop of DispNum ends within its bound. *)
Lemma DispNum_loop_terminates (fuel : nat) :
  forall number divisor m,
    0 < divisor < 10 ^ Z.of_nat fuel ->
    DispNum_loop fuel number divisor m <> OutOfFuel.
Proof.
  induction fuel as [| fuel IH]; intros number divisor m Hd.
  - cbn in Hd. lia.
  - cbn [DispNum_loop]. unfold c_div.
    destruct (Z.eqb_spec divisor 0) as [-> | _]; [lia |]. cbn [bind].
    unfold truthy.
    destruct (Z.eqb_spec (divisor / 10) 0) as [_ | Hne]; cbn [negb].
    + discriminate.
    + apply IH.
      assert (0 <= divisor / 10) by (apply Z.div_pos; lia).
      split; [lia |].
      apply Z.div_lt_upper_bound; [lia |].
      rewrite Nat2Z.inj_succ, Z.pow_succ_r in Hd by lia. lia.
Qed.

Lemma DispNum_divisor_range iters divisor :
  0 <= divisor < 65536 -> 0 <= DispNum_divisor iters divisor < 65536.
Proof.
  revert divisor. induction iters as [| iters IH]; intros divisor Hd; cbn.
  - exact Hd.
  - apply IH, wrap16_range.
Qed.

(** DispNum always returns or traps; the bound of five rounds is never
    the reason it stops. *)
Lemma DispNum_terminates number digits m :
  DispNum number digits m <> OutOfFuel.
Proof.
  unfold DispNum.
  pose proof (DispNum_divisor_range (Z.to_nat (digits - 1)) 1 ltac:(lia)) as Hr.
  set (d := DispNum_divisor _ _) in *.
  destruct (Z.eq_dec d 0) as [-> | Hne]; [discriminate |].
  apply DispNum_loop_terminates. change (10 ^ Z.of_nat 5) with 100000. lia.
Qed.

Lemma DispNum_3 number m :
  DispNum number 3 m = Ok (set_U2TX (U2TX m ++ dec_field 3 number) m).
Proof.
  unfold DispNum. change (DispNum_divisor (Z.to_nat (3 - 1)) 1) with 100.
  cbn [DispNum_loop dec_field]. unfold c_div.
  change (100 =? 0) with false. change (100 / 10) with 10.
  change (10 =? 0) with false. change (10 / 10) with 1.
  change (1 =? 0) with false. change (1 / 10) with 0.
  change (truthy 10) with true. change (truthy 1) with true.
  change (truthy 0) with false. cbn [bind].
  rewrite (put_U2TX _ m), !put_after_set.
  rewrite Z.div_1_r, (Z.div_div number 10 10) by lia.
  change (10 * 10) with 100.
  rewrite <- !app_assoc. reflexivity.
Qed.

Lemma DispNum_4 number m :
  DispNum number 4 m = Ok (set_U2TX (U2TX m ++ dec_field 4 number) m).
Proof.
  unfold DispNum. change (DispNum_divisor (Z.to_nat (4 - 1)) 1) with 1000.
  cbn [DispNum_loop dec_field]. unfold c_div.
  change (1000 =? 0) with false. change (1000 / 10) with 100.
  change (100 =? 0) with false. change (100 / 10) with 10.
  change (10 =? 0) with false. change (10 / 10) with 1.
  change (1 =? 0) with false. change (1 / 10) with 0.
  change (truthy 100) with true.
  change (truthy 10) with true. change (truthy 1) with true.
  change (truthy 0) with false. cbn [bind].
  rewrite (put_U2TX _ m), !put_after_set.
  rewrite Z.div_1_r, !(Z.div_div number) by lia.
  change (10 * 10) with 100. change (100 * 10) with 1000.
  rewrite <- !app_assoc. reflexivity.
Qed.

(** transmitVoltageADC with a non-zero period: the line it sends. *)
Lemma transmitVoltageADC_line m :
  period (pwmControl m) <> 0 ->
  transmitVoltageADC m =
  Ok (set_U2TX
        (U2TX m ++
         telemetry_line
           (wrap8 (wrap32 (wrap32 (currentDutyCycle (pwmControl m)) * 100)
                   / period (pwmControl m)))
           (adcValue (pwmControl m))) m).
Proof.
  intros Hp. unfold transmitVoltageADC, c_div.
  destruct (Z.eqb_spec (period (pwmControl m)) 0) as [H0 | _]; [contradiction |].
  cbn [bind]. rewrite DispNum_3. cbn [bind].
  unfold XmitUART2. change (Z.to_nat 1) with 1%nat. cbn [XmitUART2_loop].
  rewrite put_after_set.
  replace (pwmControl (set_U2TX _ m)) with (pwmControl m) by (destruct m; reflexivity).
  rewrite DispNum_4. cbn [bind].
  replace (U2TX (set_U2TX _ m)) with
    ((U2TX m ++ dec_field 3
        (wrap8 (wrap32 (wrap32 (currentDutyCycle (pwmControl m)) * 100)
                / period (pwmControl m)))) ++ [tx_char char_space])
    by (destruct m; reflexivity).
  rewrite set_U2TX_twice, put_after_set.
  unfold telemetry_line. rewrite <- !app_assoc. reflexivity.
Qed.

(* ------------------------------------------------------------------ *)
(** * Mode state machine (main.c) *)

(** What is left untouched by updateBrightness. *)
Lemma updateBrightness_outside sample ov m :
  let m' := updateBrightness sample ov m in
  timer1 m' = mkTimer (period (pwmControl m)) (TMR (timer1 m)) 1 /\
  ADON m' = 0 /\ SAMP m' = 0 /\
  currentState m' = currentState m /\ buttons m' = buttons m /\
  pwmCounter m' = pwmCounter m /\ buttonFlag m' = buttonFlag m /\
  LED m' = LED m /\ timer2 m' = timer2 m /\ timer3 m' = timer3 m /\
  U2TX m' = U2TX m.
Proof.
  destruct m as [st [per base bd cur en ph adc] bs cnt bf led t1 t2 t3 on sa tx].
  unfold updateBrightness, do_ADC, startTimer1, upd_pwm.
  cbn -[Z.eqb scale_duty wrap16 truthy lnot].
  destruct (truthy (lnot ov)); cbn -[Z.eqb scale_duty wrap16 truthy lnot];
    destruct (truthy (lnot en)); cbn -[Z.eqb scale_duty wrap16 truthy lnot];
    repeat split.
Qed.

Lemma updateBrightness_period sample ov m :
  period (pwmControl (updateBrightness sample ov m)) = period (pwmControl m).
Proof.
  rewrite updateBrightness_pwm. cbn zeta.
  destruct (blinkEnabled (pwmControl m) =? 0); reflexivity.
Qed.

(** The mode a statement leaves behind. *)
Definition state_after (st : Z) (s : Stmt) : Z :=
  match s with
  | Sassign st' => st'
  | _ => st
  end.

Definition final_state (k : list Stmt) (st : Z) : Z := fold_left state_after k st.

(** With a non-zero period every statement runs to completion; it leaves
    the period and the button table alone, and only an assignment changes
    the mode. *)
Lemma exec_stmt_runs sample s m :
  period (pwmControl m) <> 0 ->
  exists m', exec_stmt sample s m = Ok m' /\
    currentState m' = state_after (currentState m) s /\
    period (pwmControl m') = period (pwmControl m) /\
    buttons m' = buttons m.
Proof.
  intros Hp.
  destruct s; cbn [exec_stmt state_after];
    try (eexists; split; [reflexivity |]; destruct m; repeat split; fail).
  - eexists; split; [reflexivity |].
    destruct (updateBrightness_outside sample (period (pwmControl m)) m)
      as (_ & _ & _ & Hst & Hb & _).
    rewrite updateBrightness_period. repeat split; assumption.
  - eexists; split; [reflexivity |].
    destruct (updateBrightness_outside sample override m)
      as (_ & _ & _ & Hst & Hb & _).
    rewrite updateBrightness_period. repeat split; assumption.
  - rewrite transmitVoltageADC_line by exact Hp.
    eexists; split; [reflexivity |]. destruct m; repeat split.
Qed.

Lemma exec_stmts_runs sample k :
  forall m, period (pwmControl m) <> 0 ->
  exists m', exec_stmts sample k m = Ok m' /\
    currentState m' = final_state k (currentState m) /\
    period (pwmControl m') = period (pwmControl m) /\
    buttons m' = buttons m.
Proof.
  induction k as [| s k IH]; intros m Hp.
  - exists m. repeat split.
  - destruct (exec_stmt_runs sample s m Hp) as (m1 & Hrun & Hst & Hper & Hb).
    destruct (IH m1) as (m' & Hrun' & Hst' & Hper' & Hb'); [congruence |].
    exists m'. cbn [exec_stmts final_state fold_left]. rewrite Hrun. cbn [bind].
    split; [exact Hrun' |]. unfold final_state in Hst'.
    rewrite Hst', Hst, Hper', Hper, Hb', Hb. repeat split.
Qed.

(** The statements of a case agree with the transition table. *)
Lemma case_body_table state btns :
  final_state (case_body state btns) state
  = spec_next_state state (btn btns 0) (btn btns 1) (btn btns 2) /\
  (transitions (case_body state btns) <= 1)%nat.
Proof.
  unfold case_body, spec_next_state, Mode_of_Z.
  repeat match goal with
         | |- context [state =? ?k] =>
             destruct (Z.eqb_spec state k) as [-> | ?]
         end;
    destruct (btn btns 0), (btn btns 1), (btn btns 2);
    split; (reflexivity || (cbn; lia)).
Qed.

(** C1. One pass of handleStateTransition runs to completion, assigns the
    mode at most once, and leaves the mode that the table of section 4.5
    gives for the mode at entry and the three pressed flags (priority
    PB1 > PB2 > PB3; unchanged without flags); a mode value outside the
    six defined ones is reset to Off. *)
Theorem C1_transition_table (sample : Z) (m : Machine) :
  period (pwmControl m) <> 0 ->
  (transitions (case_body (currentState m) (buttons m)) <= 1)%nat /\
  exists m', handleStateTransition sample m = Ok m' /\
    currentState m' =
    spec_next_state (currentState m)
      (btn (buttons m) 0) (btn (buttons m) 1) (btn (buttons m) 2).
Proof.
  intros Hp.
  destruct (case_body_table (currentState m) (buttons m)) as [Htab Hone].
  split; [exact Hone |].
  destruct (exec_stmts_runs sample (case_body (currentState m) (buttons m)) m Hp)
    as (m' & Hrun & Hst & _).
  exists m'. split; [exact Hrun |]. rewrite Hst. exact Htab.
Qed.

(** A machine in mode On with PB2 and PB3 flagged in the same pass. *)
Definition on_pb2_pb3 : Machine :=
  set_buttons [mkButton 0 1 1; mkButton 1 1 1; mkButton 1 1 1]
    (set_currentState ON_MODE boot_machine).

Lemma C1_transition_table_witness :
  (transitions (case_body (currentState on_pb2_pb3) (buttons on_pb2_pb3)) <= 1)%nat /\
  exists m', handleStateTransition 512 on_pb2_pb3 = Ok m' /\
    currentState m' =
    spec_next_state (currentState on_pb2_pb3)
      (btn (buttons on_pb2_pb3) 0) (btn (buttons on_pb2_pb3) 1)
      (btn (buttons on_pb2_pb3) 2).
Proof. apply (C1_transition_table 512 on_pb2_pb3). vm_compute. congruence. Defined.

Example on_pb2_pb3_next :
  exists m', handleStateTransition 512 on_pb2_pb3 = Ok m' /\
             currentState m' = ON_BLINK.
Proof. eexists. split; vm_compute; reflexivity. Qed.

Example corrupt_mode_resets :
  exists m', handleStateTransition 0 (set_currentState 17 boot_machine) = Ok m' /\
             currentState m' = OFF_MODE.
Proof. eexists. split; vm_compute; reflexivity. Qed.

(* ------------------------------------------------------------------ *)
(** * Telemetry (PWM.c, UART2.c, main.c) *)

Lemma duty_percent_exact cur per :
  0 < per < 256 -> 0 <= cur <= per ->
  wrap8 (wrap32 (wrap32 cur * 100) / per) = cur * 100 / per /\
  0 <= cur * 100 / per <= 100.
Proof.
  intros Hp Hc.
  assert (Hq : 0 <= cur * 100 / per <= 100).
  { split; [apply Z.div_pos; nia | apply Z.div_le_upper_bound; nia]. }
  split; [| exact Hq].
  rewrite (wrap32_small cur) by lia.
  rewrite (wrap32_small (cur * 100)) by nia.
  apply wrap8_small. lia.
Qed.

Lemma pwmControl_set_U2TX v m : pwmControl (set_U2TX v m) = pwmControl m.
Proof. reflexivity. Qed.

Lemma U2TX_set_U2TX v m : U2TX (set_U2TX v m) = v.
Proof. reflexivity. Qed.

Lemma exec_stmts_app sample k1 k2 m :
  exec_stmts sample (k1 ++ k2) m =
  do m1 <- exec_stmts sample k1 m; exec_stmts sample k2 m1.
Proof.
  revert m. induction k1 as [| s k1 IH]; intros m; cbn [app exec_stmts bind].
  - reflexivity.
  - destruct (exec_stmt sample s m) as [m1 | |]; cbn [bind];
      [apply IH | reflexivity | reflexivity].
Qed.

(** The statements that may follow the transmission in a case: the
    assignment of the next mode and stopBlink. *)
Definition is_tail_stmt (s : Stmt) : bool :=
  match s with
  | Sassign _ | SstopBlink => true
  | _ => false
  end.

Lemma tail_stmts_frame sample k :
  forallb is_tail_stmt k = true ->
  forall m, exists m', exec_stmts sample k m = Ok m' /\
    U2TX m' = U2TX m /\
    currentDutyCycle (pwmControl m') = currentDutyCycle (pwmControl m) /\
    period (pwmControl m') = period (pwmControl m) /\
    adcValue (pwmControl m') = adcValue (pwmControl m).
Proof.
  induction k as [| s k IH]; intros Hk m.
  - exists m. repeat split.
  - cbn [forallb] in Hk. apply andb_prop in Hk as [Hs Hk].
    destruct s; try discriminate Hs; cbn [exec_stmts exec_stmt bind].
    + destruct (IH Hk (stopBlink m)) as (m' & Hrun & Htx & Hc & Hp & Ha).
      exists m'. split; [exact Hrun |].
      rewrite Htx, Hc, Hp, Ha. destruct m; repeat split.
    + destruct (IH Hk (set_currentState state m)) as (m' & Hrun & Htx & Hc & Hp & Ha).
      exists m'. split; [exact Hrun |].
      rewrite Htx, Hc, Hp, Ha. destruct m; repeat split.
Qed.

(** The shape of the two transmit cases. *)
Lemma case_body_transmit state btns :
  state = TRANSMIT_UART_ON \/ state = TRANSMIT_UART_BLINK ->
  exists tail, forallb is_tail_stmt tail = true /\
    case_body state btns =
    (if state =? TRANSMIT_UART_BLINK then [Sblink] else [])
    ++ [SupdateBrightness 0; StransmitVoltageADC] ++ tail.
Proof.
  intros [-> | ->]; unfold case_body;
    cbn -[btn]; destruct (btn btns 0), (btn btns 1), (btn btns 2);
    eexists; split; try reflexivity; reflexivity.
Qed.

(** updateBrightness on the sensor path followed by transmitVoltageADC. *)
Lemma update_then_transmit sample m :
  0 <= sample <= 1023 ->
  0 < period (pwmControl m) < 256 ->
  exists m',
    exec_stmts sample [SupdateBrightness 0; StransmitVoltageADC] m = Ok m' /\
    U2TX m' = U2TX m ++
      telemetry_line
        (currentDutyCycle (pwmControl m') * 100 / period (pwmControl m'))
        (adcValue (pwmControl m')) /\
    adcValue (pwmControl m') = sample /\
    0 <= currentDutyCycle (pwmControl m') * 100 / period (pwmControl m') <= 100.
Proof.
  intros Hs Hp. cbn [exec_stmts exec_stmt bind].
  set (mu := updateBrightness sample 0 m).
  assert (Hper : period (pwmControl mu) = period (pwmControl m))
    by apply updateBrightness_period.
  assert (Hadc : adcValue (pwmControl mu) = sample).
  { subst mu. rewrite updateBrightness_pwm. cbn zeta.
    destruct (blinkEnabled (pwmControl m) =? 0); cbn [adcValue];
      apply wrap16_small; lia. }
  assert (Hcur : 0 <= currentDutyCycle (pwmControl mu) <= period (pwmControl m)).
  { subst mu. rewrite updateBrightness_pwm. cbn zeta.
    change (0 =? 0) with true. cbv iota.
    rewrite (wrap16_small sample) by lia.
    pose proof (scale_duty_range sample (period (pwmControl m))
                  ltac:(lia) Hs) as Hr.
    destruct (blinkEnabled (pwmControl m) =? 0); cbn [currentDutyCycle];
      [exact Hr |].
    destruct (blinkState (pwmControl m) =? 0); [lia | exact Hr]. }
  destruct (updateBrightness_outside sample 0 m) as (_ & _ & _ & _ & _ & _ & _ & _ & _ & _ & Htx).
  fold mu in Htx.
  rewrite transmitVoltageADC_line by (rewrite Hper; lia).
  destruct (duty_percent_exact (currentDutyCycle (pwmControl mu))
              (period (pwmControl mu))) as [Hpct Hrange];
    [rewrite Hper; lia | rewrite Hper; exact Hcur |].
  rewrite Hpct, Htx.
  eexists. split; [reflexivity |].
  rewrite pwmControl_set_U2TX, U2TX_set_U2TX.
  split; [reflexivity |].
  split; [exact Hadc | exact Hrange].
Qed.

(** C7. In TransmitOn and TransmitBlink one pass of handleStateTransition
    sends exactly one line: the duty percentage
    currentDutyCycle * 100 / period as a 3-digit decimal field, one space,
    the sample as a 4-digit decimal field, and a newline. *)
Theorem C7_one_telemetry_line (sample : Z) (m : Machine) :
  currentState m = TRANSMIT_UART_ON \/ currentState m = TRANSMIT_UART_BLINK ->
  0 <= sample <= 1023 ->
  0 < period (pwmControl m) < 256 ->
  exists m',
    handleStateTransition sample m = Ok m' /\
    U2TX m' = U2TX m ++
      telemetry_line
        (currentDutyCycle (pwmControl m') * 100 / period (pwmControl m'))
        (adcValue (pwmControl m')) /\
    adcValue (pwmControl m') = sample /\
    0 <= currentDutyCycle (pwmControl m') * 100 / period (pwmControl m') <= 100.
Proof.
  intros Hst Hs Hp. unfold handleStateTransition.
  destruct (case_body_transmit (currentState m) (buttons m) Hst)
    as (tail & Htail & ->).
  set (m0 := if currentState m =? TRANSMIT_UART_BLINK then blink m else m).
  assert (Hpre : exec_stmts sample
                   (if currentState m =? TRANSMIT_UART_BLINK then [Sblink] else []) m
                 = Ok m0).
  { subst m0. destruct (currentState m =? TRANSMIT_UART_BLINK); reflexivity. }
  assert (Hm0 : U2TX m0 = U2TX m /\ period (pwmControl m0) = period (pwmControl m)).
  { subst m0. destruct (currentState m =? TRANSMIT_UART_BLINK);
      [destruct m |]; split; reflexivity. }
  destruct Hm0 as [Htx0 Hper0].
  rewrite exec_stmts_app, Hpre. cbn [bind].
  rewrite exec_stmts_app.
  destruct (update_then_transmit sample m0 Hs) as (m1 & Hrun & Htx & Hadc & Hpct);
    [rewrite Hper0; exact Hp |].
  rewrite Hrun. cbn [bind].
  destruct (tail_stmts_frame sample tail Htail m1) as (m' & Hrun' & Htx' & Hc & Hper & Ha).
  exists m'. split; [exact Hrun' |].
  rewrite Htx', Hc, Hper, Ha, Htx, Htx0.
  split; [reflexivity |]. split; [exact Hadc | exact Hpct].
Qed.

(** A machine in TransmitBlink, in the lit half of the blink cycle. *)
Definition transmitting_blink : Machine :=
  set_currentState TRANSMIT_UART_BLINK
    (T2Interrupt (updateBrightness 512 0 (blink boot_machine))).

Lemma C7_one_telemetry_line_witness :
  exists m',
    handleStateTransition 768 transmitting_blink = Ok m' /\
    U2TX m' = U2TX transmitting_blink ++
      telemetry_line
        (currentDutyCycle (pwmControl m') * 100 / period (pwmControl m'))
        (adcValue (pwmControl m')) /\
    adcValue (pwmControl m') = 768 /\
    0 <= currentDutyCycle (pwmControl m') * 100 / period (pwmControl m') <= 100.
Proof.
  apply (C7_one_telemetry_line 768 transmitting_blink).
  - right. reflexivity.
  - lia.
  - vm_compute. split; reflexivity.
Defined.

(** The line of the witness: 37 * 100 / 50 = 74 percent, sample 768. *)
Example telemetry_line_74_768 :
  telemetry_line 74 768 =
  ["0"; "7"; "4"; " "; "0"; "7"; "6"; "8"; "010"]%char.
Proof. reflexivity. Qed.

(* ------------------------------------------------------------------ *)
(** * Button monitor (IOs.c) *)

(** [sets_pressed] is the condition under which one round of the loop of
    IOcheck writes the flag. *)
Lemma IOcheck_button_pressed pins (btns : list ButtonState) (i : nat) :
  (i < length btns)%nat ->
  let level := if (i =? 0)%nat then PB1 pins
               else if (i =? 1)%nat then PB2 pins else PB3 pins in
  pressed (IOcheck_button pins btns i !!! i) =
  if sets_pressed (btns !!! i) level then 1 else pressed (btns !!! i).
Proof.
  intros Hi level. unfold IOcheck_button. fold level.
  rewrite list_lookup_total_insert_eq by exact Hi.
  unfold sets_pressed. cbn [newState prevState pressed].
  destruct (level =? prevState (btns !!! i)); cbn [negb andb]; [reflexivity |].
  destruct ((prevState (btns !!! i) =? 0) && (level =? 1)); reflexivity.
Qed.

Lemma three_buttons (btns : list ButtonState) :
  length btns = 3%nat -> exists b0 b1 b2, btns = [b0; b1; b2].
Proof.
  intros H. destruct btns as [| b0 [| b1 [| b2 [| b3 btns]]]]; try discriminate H.
  exists b0, b1, b2. reflexivity.
Qed.

Lemma IOcheck_button_sampled pins (btns : list ButtonState) (i : nat) :
  IOcheck_button pins btns i
  = <[i := sampled (btns !!! i) (pin_level pins i)]> btns.
Proof.
  unfold IOcheck_button. fold (pin_level pins i). cbv zeta.
  cbn [newState prevState pressed]. f_equal. unfold sampled.
  set (b := btns !!! i). set (level := pin_level pins i).
  destruct (Z.eqb_spec level (prevState b)) as [Heq | Hne]; cbn [negb].
  - rewrite <- Heq.
    destruct (Z.eqb_spec level 0) as [-> | H0]; [reflexivity |].
    cbn [andb]. destruct b; cbn in *; subst; reflexivity.
  - destruct ((prevState b =? 0) && (level =? 1)); reflexivity.
Qed.

Lemma IOcheck_three pins b0 b1 b2 :
  fold_left (IOcheck_button pins) (seq 0 3) [b0; b1; b2]
  = [sampled b0 (PB1 pins); sampled b1 (PB2 pins); sampled b2 (PB3 pins)].
Proof.
  cbn [seq fold_left]. rewrite !IOcheck_button_sampled. reflexivity.
Qed.

Lemma sets_pressed_edge b level :
  sets_pressed b level = (prevState b =? pushed) && (level =? released).
Proof.
  unfold sets_pressed, pushed, released.
  destruct (Z.eqb_spec (prevState b) 0) as [Hp | Hp]; cbn [andb].
  - destruct (Z.eqb_spec level 1) as [Hl | Hl]; cbn [andb].
    + rewrite Hp, Hl. reflexivity.
    + apply andb_false_r.
  - apply andb_false_r.
Qed.

Lemma pin_level_pins_for i level :
  (i < 3)%nat -> pin_level (pins_for i level) i = level.
Proof. intros Hi. destruct i as [| [| [| i]]]; [| | | lia]; reflexivity. Qed.

(** After a call of IOcheck the table still has three entries and the
    previous level of button [i] is the level just sampled. *)
Lemma IOcheck_prev_after pins (m : Machine) (i : nat) :
  length (buttons m) = 3%nat -> (i < 3)%nat ->
  length (buttons (snd (IOcheck pins m))) = 3%nat /\
  prevState (buttons (snd (IOcheck pins m)) !!! i) = pin_level pins i.
Proof.
  intros Hlen Hi.
  destruct (three_buttons (buttons m) Hlen) as (b0 & b1 & b2 & Hb).
  unfold IOcheck. cbn [snd]. rewrite Hb, IOcheck_three.
  destruct i as [| [| [| i]]]; [| | | lia]; split; reflexivity.
Qed.

(** The calls of IOcheck that set the flag are the release edges of the
    levels fed to the button. *)
Lemma IOcheck_calls_release_edges (i : nat) (levels : list Z) :
  (i < 3)%nat ->
  forall from m,
    length (buttons m) = 3%nat ->
    positions fst from (IOcheck_calls i levels m)
    = release_edges (prevState (buttons m !!! i)) from levels.
Proof.
  intros Hi. induction levels as [| level levels IH]; intros from m Hlen.
  - reflexivity.
  - cbn [IOcheck_calls positions release_edges fst].
    destruct (IOcheck_prev_after (pins_for i level) m i Hlen Hi) as [Hlen1 Hprev].
    rewrite (IH (S from) _ Hlen1), Hprev, pin_level_pins_for by exact Hi.
    rewrite sets_pressed_edge. reflexivity.
Qed.

(** C5. From the boot state (previous level released), the levels
    released, released, pressed, released fed to one button through four
    successive calls of IOcheck set its pressed flag exactly once.  The
    event is the release edge: the line is released at boot, pressed at
    the third call and released for the second time at the fourth call,
    and that call sets the flag.  For every level sequence the calls that
    set the flag are exactly the release edges. *)
Theorem C5_release_edge_once (i : nat) :
  (i < 3)%nat ->
  IOcheck_calls i [released; released; pushed; released] boot_machine
  = [(false, 0); (false, 0); (false, 0); (true, 1)] /\
  event_calls i [released; released; pushed; released] boot_machine = [4%nat] /\
  release_edges released 1 [released; released; pushed; released] = [4%nat] /\
  (forall levels,
     event_calls i levels boot_machine = release_edges released 1 levels).
Proof.
  intros Hi. split; [| split; [| split]].
  - destruct i as [| [| [| i]]]; [| | | lia]; reflexivity.
  - destruct i as [| [| [| i]]]; [| | | lia]; reflexivity.
  - reflexivity.
  - intros levels. unfold event_calls.
    rewrite (IOcheck_calls_release_edges i levels Hi 1%nat boot_machine)
      by reflexivity.
    destruct i as [| [| [| i]]]; [| | | lia]; reflexivity.
Qed.

Lemma C5_release_edge_once_witness :
  IOcheck_calls 1 [released; released; pushed; released] boot_machine
  = [(false, 0); (false, 0); (false, 0); (true, 1)] /\
  event_calls 1 [released; released; pushed; released] boot_machine = [4%nat] /\
  release_edges released 1 [released; released; pushed; released] = [4%nat] /\
  (forall levels,
     event_calls 1 levels boot_machine = release_edges released 1 levels).
Proof. apply (C5_release_edge_once 1). lia. Defined.

(* ------------------------------------------------------------------ *)
(** * Reachable states *)

Lemma run_Reachable es :
  forall c c', Reachable c -> forallb valid_event es = true ->
               run es c = Ok c' -> Reachable c'.
Proof.
  induction es as [| e es IH]; intros c c' Hc Hv Hrun; cbn in Hrun, Hv.
  - injection Hrun as <-. exact Hc.
  - apply andb_prop in Hv as [He Hes].
    destruct (step e c) as [c1 | |] eqn:Hstep; cbn [bind] in Hrun;
      try discriminate Hrun.
    apply (IH c1 c'); [| exact Hes | exact Hrun].
    exact (Reachable_step e c c1 Hc He Hstep).
Qed.

(** Only 0 and the period are passed as override. *)
Lemma case_body_ok state btns : forallb stmt_ok (case_body state btns) = true.
Proof.
  unfold case_body.
  repeat match goal with
         | |- context [state =? ?k] => destruct (state =? k)
         end;
    destruct (btn btns 0), (btn btns 1), (btn btns 2); reflexivity.
Qed.

Lemma updateBrightness_ok sample ov m :
  pwm_ok (pwmControl m) ->
  0 <= sample <= 1023 ->
  ov = 0 \/ ov = period (pwmControl m) ->
  pwm_ok (pwmControl (updateBrightness sample ov m)).
Proof.
  intros (Hp & Hb & Hbd & Hc) Hs Hov.
  rewrite updateBrightness_pwm. cbn zeta.
  rewrite (wrap16_small sample) by lia.
  pose proof (scale_duty_range sample (period (pwmControl m)) ltac:(lia) Hs) as Hr.
  rewrite Hp in *.
  assert (Hbase : 0 <= (if ov =? 0 then scale_duty sample 50 else ov) <= 50).
  { destruct Hov as [-> | ->]; [exact Hr | cbn; lia]. }
  unfold pwm_ok.
  destruct (blinkEnabled (pwmControl m) =? 0);
    cbn [period baseDutyCycle blinkDutyCycle currentDutyCycle];
    [repeat split; lia |].
  destruct (blinkState (pwmControl m) =? 0); repeat split; lia.
Qed.

Lemma exec_stmt_ok sample s m m' :
  pwm_ok (pwmControl m) ->
  0 <= sample <= 1023 ->
  stmt_ok s = true ->
  exec_stmt sample s m = Ok m' ->
  pwm_ok (pwmControl m').
Proof.
  intros Hok Hs Hst Hrun.
  destruct s; cbn [exec_stmt] in Hrun;
    try (injection Hrun as <-; destruct m as [? [] ? ? ? ? ? ? ? ? ? ?];
         exact Hok).
  - injection Hrun as <-. apply updateBrightness_ok; [exact Hok | exact Hs |].
    right. reflexivity.
  - injection Hrun as <-. apply updateBrightness_ok; [exact Hok | exact Hs |].
    left. cbn in Hst. lia.
  - rewrite transmitVoltageADC_line in Hrun
      by (destruct Hok as [Hp _]; rewrite Hp; discriminate).
    injection Hrun as <-. exact Hok.
Qed.

Lemma T1Interrupt_ok m :
  pwm_ok (pwmControl m) ->
  exists m', T1Interrupt m = Ok m' /\ pwm_ok (pwmControl m').
Proof.
  intros Hok.
  destruct (T1Interrupt_pwm m) as (m' & Hrun & Hpwm).
  - destruct Hok as [Hp _]. rewrite Hp. discriminate.
  - exists m'. split; [exact Hrun |]. rewrite Hpwm.
    destruct Hok as (Hp & Hb & Hbd & Hc). unfold pwm_ok.
    destruct (blinkEnabled (pwmControl m) =? 0);
      cbn [set_currentDutyCycle period baseDutyCycle blinkDutyCycle currentDutyCycle];
      repeat split; lia.
Qed.

Lemma T2Interrupt_ok m :
  pwm_ok (pwmControl m) -> pwm_ok (pwmControl (T2Interrupt m)).
Proof.
  intros Hok. rewrite T2Interrupt_pwm. cbn zeta.
  destruct (blinkEnabled (pwmControl m) =? 0); [exact Hok |].
  destruct Hok as (Hp & Hb & Hbd & Hc). unfold pwm_ok.
  destruct (blinkState (pwmControl m) =? 0);
    cbn [period baseDutyCycle blinkDutyCycle currentDutyCycle];
    repeat split; lia.
Qed.

Lemma poll_buttons_pwm pins m : pwmControl (poll_buttons pins m) = pwmControl m.
Proof. unfold poll_buttons. destruct (truthy (buttonFlag m)); reflexivity. Qed.

(** One step from a good configuration: it does not trap, and the next
    configuration is good again. *)
Lemma step_ok e c :
  pwm_ok (pwmControl (fst c)) -> pc_ok (snd c) = true ->
  valid_event e = true ->
  exists c', step e c = Ok c' /\
    pwm_ok (pwmControl (fst c')) /\ pc_ok (snd c') = true.
Proof.
  destruct c as [m pc]. cbn [fst snd]. intros Hok Hpc Hv.
  destruct e as [sample pins | | | |]; cbn [step].
  - assert (Hs : 0 <= sample <= 1023).
    { cbn in Hv. repeat (apply andb_prop in Hv as [Hv ?]). lia. }
    destruct pc as [| [| s k]].
    + eexists; split; [reflexivity |]. cbn [fst snd pc_ok].
      rewrite poll_buttons_pwm. split; [exact Hok | apply case_body_ok].
    + eexists; split; [reflexivity |]. split; [exact Hok | reflexivity].
    + cbn [pc_ok forallb] in Hpc. apply andb_prop in Hpc as [Hst Hk].
      destruct (exec_stmt_runs sample s m) as (m1 & Hrun & _).
      { destruct Hok as [Hp _]. rewrite Hp. discriminate. }
      rewrite Hrun. cbn [bind]. eexists; split; [reflexivity |].
      split; [exact (exec_stmt_ok sample s m m1 Hok Hs Hst Hrun) | exact Hk].
  - destruct (T1Interrupt_ok m Hok) as (m1 & Hrun & Hok1).
    rewrite Hrun. cbn [bind]. eexists; split; [reflexivity |].
    split; [exact Hok1 | exact Hpc].
  - eexists; split; [reflexivity |]. split; [apply T2Interrupt_ok, Hok | exact Hpc].
  - eexists; split; [reflexivity |]. split; [exact Hok | exact Hpc].
  - eexists; split; [reflexivity |]. split; [exact Hok | exact Hpc].
Qed.

Lemma Reachable_ok c :
  Reachable c -> pwm_ok (pwmControl (fst c)) /\ pc_ok (snd c) = true.
Proof.
  induction 1 as [| e c c' _ [Hok Hpc] Hv Hstep].
  - split; [| reflexivity]. unfold pwm_ok. cbn. lia.
  - destruct (step_ok e c Hok Hpc Hv) as (c1 & Hstep1 & Hok1 & Hpc1).
    rewrite Hstep in Hstep1. injection Hstep1 as <-. split; assumption.
Qed.

(** C9. In every reachable state the period is the constant 50 it was
    initialised with, so the remainder of the Timer 1 interrupt and the
    division of transmitVoltageADC are defined, and no step of the
    program or of an interrupt handler traps. *)
Theorem C9_period_never_zero (c : Config) :
  Reachable c ->
  period (pwmControl (fst c)) = 50 /\
  (exists m', T1Interrupt (fst c) = Ok m') /\
  (exists m', transmitVoltageADC (fst c) = Ok m') /\
  (forall e, valid_event e = true ->
     exists c', step e c = Ok c' /\
                period (pwmControl (fst c')) = period (pwmControl (fst c))).
Proof.
  intros Hr. destruct (Reachable_ok c Hr) as [Hok Hpc].
  pose proof Hok as (Hp & _).
  split; [exact Hp |]. split; [| split].
  - destruct (T1Interrupt_ok (fst c) Hok) as (m' & Hrun & _). eauto.
  - rewrite transmitVoltageADC_line by (rewrite Hp; discriminate). eauto.
  - intros e Hv. destruct (step_ok e c Hok Hpc Hv) as (c' & Hstep & (Hp' & _) & _).
    exists c'. split; [exact Hstep | congruence].
Qed.

Lemma C9_period_never_zero_witness :
  period (pwmControl (fst (boot_machine, LoopTop))) = 50 /\
  (exists m', T1Interrupt (fst (boot_machine, LoopTop)) = Ok m') /\
  (exists m', transmitVoltageADC (fst (boot_machine, LoopTop)) = Ok m') /\
  (forall e, valid_event e = true ->
     exists c', step e (boot_machine, LoopTop) = Ok c' /\
                period (pwmControl (fst c'))
                = period (pwmControl (fst (boot_machine, LoopTop)))).
Proof. apply (C9_period_never_zero (boot_machine, LoopTop)). apply Reachable_boot. Defined.

(* ------------------------------------------------------------------ *)
(** * The duty-cycle invariant *)

Lemma updateBrightness_consistent sample ov m :
  duty_consistent (pwmControl (updateBrightness sample ov m)).
Proof.
  rewrite updateBrightness_pwm. cbn zeta. unfold duty_consistent.
  destruct (Z.eqb_spec (blinkEnabled (pwmControl m)) 0) as [Hen | Hen];
    cbn [blinkEnabled currentDutyCycle baseDutyCycle blinkDutyCycle].
  - split; [reflexivity | contradiction].
  - split; [contradiction |]. intros _.
    destruct (blinkState (pwmControl m) =? 0); [right | left]; reflexivity.
Qed.

Lemma T1Interrupt_consistent m m' :
  T1Interrupt m = Ok m' ->
  blinkEnabled (pwmControl m) = 0 \/ duty_consistent (pwmControl m) ->
  duty_consistent (pwmControl m').
Proof.
  intros Hrun Hpre.
  assert (Hp : period (pwmControl m) <> 0).
  { intros H0. unfold T1Interrupt, c_mod in Hrun. rewrite H0 in Hrun.
    discriminate Hrun. }
  destruct (T1Interrupt_pwm m Hp) as (m1 & Hrun1 & Hpwm).
  rewrite Hrun in Hrun1. injection Hrun1 as <-. rewrite Hpwm.
  unfold duty_consistent.
  destruct (Z.eqb_spec (blinkEnabled (pwmControl m)) 0) as [Hen | Hen];
    cbn [set_currentDutyCycle blinkEnabled currentDutyCycle baseDutyCycle blinkDutyCycle].
  - split; [reflexivity | contradiction].
  - destruct Hpre as [H0 | [_ Hc]]; [contradiction |].
    split; [contradiction | exact Hc].
Qed.

Lemma T2Interrupt_consistent m :
  blinkEnabled (pwmControl m) <> 0 \/ duty_consistent (pwmControl m) ->
  duty_consistent (pwmControl (T2Interrupt m)).
Proof.
  intros Hpre. rewrite T2Interrupt_pwm. cbn zeta.
  destruct (Z.eqb_spec (blinkEnabled (pwmControl m)) 0) as [Hen | Hen].
  - destruct Hpre as [Hne | Hc]; [contradiction | exact Hc].
  - unfold duty_consistent.
    cbn [blinkEnabled currentDutyCycle baseDutyCycle blinkDutyCycle].
    split; [contradiction |]. intros _.
    destruct (blinkState (pwmControl m) =? 0); [left | right]; reflexivity.
Qed.

(** C2, as the code has it. At every point of the execution (between any
    two statements of the main program or interrupt handlers)
    0 <= currentDutyCycle <= period.  The relation between
    currentDutyCycle and the blink fields (blink disabled:
    currentDutyCycle = baseDutyCycle; blink enabled: currentDutyCycle is
    blinkDutyCycle or 0) holds after every call of updateBrightness,
    after a Timer 1 tick with blink disabled and after a Timer 2 tick
    with blink enabled, and both ticks preserve it.  Nothing is promised
    between blink() or stopBlink() and the update or tick that follows. *)
Theorem C2_duty_invariant (c : Config) :
  Reachable c ->
  let m := fst c in
  duty_bounded (pwmControl m) /\
  (forall sample ov,
     duty_consistent (pwmControl (updateBrightness sample ov m))) /\
  (exists m', T1Interrupt m = Ok m' /\
     (blinkEnabled (pwmControl m) = 0 \/ duty_consistent (pwmControl m) ->
      duty_consistent (pwmControl m'))) /\
  (blinkEnabled (pwmControl m) <> 0 \/ duty_consistent (pwmControl m) ->
   duty_consistent (pwmControl (T2Interrupt m))).
Proof.
  intros Hr m. destruct (Reachable_ok c Hr) as [Hok _]. fold m in Hok.
  split; [| split; [| split]].
  - destruct Hok as (Hp & _ & _ & Hc). unfold duty_bounded. lia.
  - intros sample ov. apply updateBrightness_consistent.
  - destruct (T1Interrupt_ok m Hok) as (m' & Hrun & _).
    exists m'. split; [exact Hrun |]. apply T1Interrupt_consistent, Hrun.
  - apply T2Interrupt_consistent.
Qed.

(** A run that ends between blink() and updateBrightness: PB1 is pressed
    and released in mode Off, the brightness is set from sample 512 in
    mode On, PB2 is pressed and released, and the pass in mode OnBlink
    has run its first statement. *)
Definition all_released : PortPins := mkPins 1 1 1.

Definition mains (n : nat) (sample : Z) (pins : PortPins) : list Event :=
  repeat (EvMain sample pins) n.

Definition press_then_blink : list Event :=
  [EvCN] ++ mains 7 512 (pins_for 0 pushed)
  ++ [EvCN] ++ mains 8 512 all_released
  ++ [EvCN] ++ mains 3 512 (pins_for 1 pushed)
  ++ [EvCN] ++ mains 4 512 all_released
  ++ mains 2 512 all_released.

Definition after_blink_call : Config :=
  match run press_then_blink (boot_machine, LoopTop) with
  | Ok c => c
  | _ => (boot_machine, LoopTop)
  end.

Lemma C2_duty_invariant_witness :
  let m := fst after_blink_call in
  duty_bounded (pwmControl m) /\
  (forall sample ov,
     duty_consistent (pwmControl (updateBrightness sample ov m))) /\
  (exists m', T1Interrupt m = Ok m' /\
     (blinkEnabled (pwmControl m) = 0 \/ duty_consistent (pwmControl m) ->
      duty_consistent (pwmControl m'))) /\
  (blinkEnabled (pwmControl m) <> 0 \/ duty_consistent (pwmControl m) ->
   duty_consistent (pwmControl (T2Interrupt m))).
Proof.
  apply (C2_duty_invariant after_blink_call).
  apply (run_Reachable press_then_blink (boot_machine, LoopTop));
    [apply Reachable_boot | vm_compute; reflexivity | vm_compute; reflexivity].
Defined.

(** C2 as stated fails: in that reachable configuration blink is enabled,
    the mode is OnBlink with [updateBrightness 0] next, and
    currentDutyCycle is 25 while blinkDutyCycle is 0. *)
Lemma C2_counterexample :
  Reachable after_blink_call /\
  currentState (fst after_blink_call) = ON_BLINK /\
  snd after_blink_call = Handling [SupdateBrightness 0] /\
  pwmControl (fst after_blink_call) = mkPWM 50 25 0 25 1 0 512 /\
  ~ PwmInvariant (pwmControl (fst after_blink_call)).
Proof.
  split.
  { apply (run_Reachable press_then_blink (boot_machine, LoopTop));
      [apply Reachable_boot | vm_compute; reflexivity | vm_compute; reflexivity]. }
  assert (Hpwm : pwmControl (fst after_blink_call) = mkPWM 50 25 0 25 1 0 512)
    by (vm_compute; reflexivity).
  split; [vm_compute; reflexivity |]. split; [vm_compute; reflexivity |].
  split; [exact Hpwm |].
  rewrite Hpwm. intros [_ [_ Hblink]]. cbn in Hblink.
  destruct Hblink as [H | H]; [discriminate | |]; discriminate H.
Qed.

(* ------------------------------------------------------------------ *)
(** * Further properties of the serial transmitter (UART2.c) *)

Lemma send_U2TX output :
  forall m, send output m = set_U2TX (U2TX m ++ map tx_char output) m.
Proof.
  unfold send. induction output as [| c output IH]; intros m; cbn [fold_left map].
  - rewrite app_nil_r. destruct m; reflexivity.
  - rewrite IH, (put_U2TX c m), U2TX_set_U2TX, set_U2TX_twice, <- app_assoc.
    reflexivity.
Qed.

Lemma Disp2String_send str : forall m, Disp2String str m = send str m.
Proof. induction str as [| c str IH]; intros m; [reflexivity | apply IH]. Qed.

(** X1. Disp2String sends the characters of the string in order and
    touches nothing but the transmitter; sending a concatenation is
    sending the parts one after the other. *)
Theorem Disp2String_appends (s1 s2 : list Z) (m : Machine) :
  Disp2String s1 m = set_U2TX (U2TX m ++ map tx_char s1) m /\
  Disp2String (s1 ++ s2) m = Disp2String s2 (Disp2String s1 m).
Proof.
  split.
  - rewrite Disp2String_send. apply send_U2TX.
  - rewrite !Disp2String_send. unfold send. apply fold_left_app.
Qed.

Lemma XmitUART2_loop_U2TX character count :
  forall m, XmitUART2_loop character count m
            = set_U2TX (U2TX m ++ repeat (tx_char character) count) m.
Proof.
  induction count as [| count IH]; intros m; cbn [XmitUART2_loop repeat].
  - rewrite app_nil_r. destruct m; reflexivity.
  - rewrite IH, (put_U2TX character m), U2TX_set_U2TX, set_U2TX_twice,
      <- app_assoc. reflexivity.
Qed.

(** X2. XmitUART2 sends the character exactly [count] times and touches
    nothing else; a count of 0 sends nothing, and two calls in a row send
    as many characters as one call with the sum of the counts. *)
Theorem XmitUART2_repeats (character a b : Z) (m : Machine) :
  0 <= a -> 0 <= b ->
  XmitUART2 character a m
    = set_U2TX (U2TX m ++ repeat (tx_char character) (Z.to_nat a)) m /\
  XmitUART2 character 0 m = m /\
  XmitUART2 character b (XmitUART2 character a m) = XmitUART2 character (a + b) m.
Proof.
  intros Ha Hb. unfold XmitUART2. split; [apply XmitUART2_loop_U2TX |].
  split; [reflexivity |].
  rewrite !XmitUART2_loop_U2TX, U2TX_set_U2TX, set_U2TX_twice, <- app_assoc.
  rewrite Z2Nat.inj_add by assumption. rewrite repeat_app. reflexivity.
Qed.

Lemma XmitUART2_repeats_witness :
  XmitUART2 char_space 2 boot_machine
    = set_U2TX (U2TX boot_machine ++ repeat (tx_char char_space) (Z.to_nat 2))
               boot_machine /\
  XmitUART2 char_space 0 boot_machine = boot_machine /\
  XmitUART2 char_space 3 (XmitUART2 char_space 2 boot_machine)
    = XmitUART2 char_space (2 + 3) boot_machine.
Proof. apply (XmitUART2_repeats char_space 2 3 boot_machine); lia. Defined.

(** The most significant digit of a field comes first. *)
Lemma dec_field_head width :
  forall n, dec_field (S width) n
            = tx_char (char_0 + (n / 10 ^ Z.of_nat width) mod 10) :: dec_field width n.
Proof.
  induction width as [| width IH]; intros n.
  - cbn [dec_field app]. change (10 ^ Z.of_nat 0) with 1. rewrite Z.div_1_r.
    reflexivity.
  - change (dec_field (S (S width)) n)
      with (dec_field (S width) (n / 10) ++ [tx_char (char_0 + n mod 10)]).
    rewrite IH. cbn [app dec_field].
    rewrite Nat2Z.inj_succ, Z.pow_succ_r by lia.
    rewrite Z.div_div by lia. reflexivity.
Qed.

Lemma DispNum_loop_pow10 k :
  forall fuel number m,
    (k < fuel)%nat ->
    DispNum_loop fuel number (10 ^ Z.of_nat k) m
    = Ok (set_U2TX (U2TX m ++ dec_field (S k) number) m).
Proof.
  induction k as [| k IH]; intros fuel number m Hk;
    (destruct fuel as [| fuel]; [lia |]); cbn [DispNum_loop]; unfold c_div.
  - change (10 ^ Z.of_nat 0) with 1. cbn [Z.eqb bind].
    change (1 / 10) with 0. change (truthy 0) with false. cbv iota.
    rewrite Z.div_1_r. reflexivity.
  - assert (Hpos : 0 < 10 ^ Z.of_nat (S k)) by (apply Z.pow_pos_nonneg; lia).
    destruct (Z.eqb_spec (10 ^ Z.of_nat (S k)) 0) as [H0 | _]; [lia |].
    cbn [bind].
    assert (Hdiv : 10 ^ Z.of_nat (S k) / 10 = 10 ^ Z.of_nat k).
    { rewrite Nat2Z.inj_succ, Z.pow_succ_r by lia.
      rewrite Z.mul_comm. apply Z.div_mul. lia. }
    rewrite Hdiv.
    assert (Hk0 : 0 < 10 ^ Z.of_nat k) by (apply Z.pow_pos_nonneg; lia).
    rewrite truthy_true by lia.
    rewrite IH by lia.
    rewrite (put_U2TX _ m), U2TX_set_U2TX, set_U2TX_twice, <- app_assoc.
    rewrite (dec_field_head (S k)). reflexivity.
Qed.

Lemma DispNum_divisor_mod k :
  forall d, 0 <= d < 65536 -> DispNum_divisor k d = wrap16 (d * 10 ^ Z.of_nat k).
Proof.
  induction k as [| k IH]; intros d Hd.
  - cbn [DispNum_divisor]. change (10 ^ Z.of_nat 0) with 1.
    rewrite Z.mul_1_r, wrap16_small; [reflexivity | exact Hd].
  - cbn [DispNum_divisor]. rewrite IH by apply wrap16_range.
    unfold wrap16. rewrite Z.mul_mod_idemp_l by lia.
    rewrite Nat2Z.inj_succ, Z.pow_succ_r by lia. f_equal. lia.
Qed.

Lemma DispNum_divisor_small k :
  (k <= 4)%nat -> DispNum_divisor k 1 = 10 ^ Z.of_nat k.
Proof.
  intros Hk. destruct k as [| [| [| [| [| k]]]]]; [reflexivity .. | lia].
Qed.

Lemma DispNum_field number digits m :
  0 <= digits <= 5 ->
  DispNum number digits m
  = Ok (set_U2TX (U2TX m ++ dec_field (Z.to_nat (Z.max 1 digits)) number) m).
Proof.
  intros Hd. unfold DispNum.
  rewrite DispNum_divisor_small by lia.
  rewrite DispNum_loop_pow10 by lia.
  replace (S (Z.to_nat (digits - 1))) with (Z.to_nat (Z.max 1 digits)) by lia.
  reflexivity.
Qed.

(** X3. For up to five digits DispNum sends the number as a decimal field
    of that width, most significant digit first, padded with zeros (of a
    longer number only the low digits); asked for no digit at all it
    still sends one. Nothing but the transmitter changes. *)
Theorem DispNum_sends_field (number digits : Z) (m : Machine) :
  0 <= digits <= 5 ->
  DispNum number digits m
  = Ok (set_U2TX (U2TX m ++ dec_field (Z.to_nat (Z.max 1 digits)) number) m).
Proof.
  intros Hd. unfold DispNum.
  rewrite DispNum_divisor_small by lia.
  rewrite DispNum_loop_pow10 by lia.
  f_equal. f_equal. f_equal. f_equal. lia.
Qed.

Lemma DispNum_sends_field_witness :
  DispNum 1023 5 boot_machine
  = Ok (set_U2TX (U2TX boot_machine ++ dec_field (Z.to_nat (Z.max 1 5)) 1023)
                 boot_machine).
Proof. apply (DispNum_sends_field 1023 5 boot_machine). lia. Defined.

(** The divisor of DispNum is zero from seventeen digits on, and not
    before. *)
Lemma DispNum_divisor_zero k :
  (16 <= k)%nat -> DispNum_divisor k 1 = 0.
Proof.
  intros Hk. rewrite DispNum_divisor_mod by lia. rewrite Z.mul_1_l.
  replace (Z.of_nat k) with (16 + Z.of_nat (k - 16)) by lia.
  rewrite Z.pow_add_r by lia. unfold wrap16.
  rewrite <- Z.mul_mod_idemp_l by lia.
  change (10 ^ 16 mod 65536) with 0. reflexivity.
Qed.

Lemma DispNum_divisor_nonzero k :
  (k <= 15)%nat -> DispNum_divisor k 1 <> 0.
Proof.
  intros Hk.
  assert (Hall : forallb (fun j => negb (DispNum_divisor j 1 =? 0)) (seq 0 16) = true)
    by (vm_compute; reflexivity).
  rewrite forallb_forall in Hall.
  specialize (Hall k ltac:(apply in_seq; lia)).
  destruct (Z.eqb_spec (DispNum_divisor k 1) 0); [discriminate | assumption].
Qed.

Lemma DispNum_loop_no_trap fuel :
  forall number divisor m,
    divisor <> 0 -> DispNum_loop fuel number divisor m <> MathError.
Proof.
  induction fuel as [| fuel IH]; intros number divisor m Hd; cbn [DispNum_loop].
  - discriminate.
  - unfold c_div. destruct (Z.eqb_spec divisor 0) as [H0 | _]; [contradiction |].
    cbn [bind]. unfold truthy.
    destruct (Z.eqb_spec (divisor / 10) 0) as [_ | Hne]; cbn [negb].
    + discriminate.
    + apply IH. exact Hne.
Qed.

(** X4. DispNum divides by a 16-bit power of ten that it builds by
    repeated multiplication: from seventeen digits on that divisor has
    wrapped to zero and the call ends in a division by zero; with up to
    sixteen digits the call always returns. *)
Theorem DispNum_trap_threshold (number digits : Z) (m : Machine) :
  0 <= digits <= 255 ->
  (17 <= digits -> DispNum number digits m = MathError) /\
  (digits <= 16 -> exists m', DispNum number digits m = Ok m').
Proof.
  intros Hd. split; intros Hcase.
  - unfold DispNum. rewrite DispNum_divisor_zero by lia. reflexivity.
  - pose proof (DispNum_terminates number digits m) as Hfuel.
    assert (Htrap : DispNum number digits m <> MathError).
    { unfold DispNum. apply DispNum_loop_no_trap, DispNum_divisor_nonzero. lia. }
    destruct (DispNum number digits m) as [m' | |];
      [exists m'; reflexivity | contradiction | contradiction].
Qed.

Lemma DispNum_trap_threshold_witness :
  (17 <= 17 -> DispNum 42 17 boot_machine = MathError) /\
  (17 <= 16 -> exists m', DispNum 42 17 boot_machine = Ok m').
Proof. apply (DispNum_trap_threshold 42 17 boot_machine). lia. Defined.

(** Reading a field back. *)
Lemma digit_value_tx d : 0 <= d < 10 -> digit_value (tx_char (char_0 + d)) = d.
Proof.
  intros Hd.
  assert (Hall : forallb (fun k => digit_value (tx_char (char_0 + k)) =? k)
                         [0; 1; 2; 3; 4; 5; 6; 7; 8; 9] = true)
    by (vm_compute; reflexivity).
  rewrite forallb_forall in Hall.
  apply Z.eqb_eq, Hall.
  assert (Hc : d = 0 \/ d = 1 \/ d = 2 \/ d = 3 \/ d = 4 \/ d = 5 \/
               d = 6 \/ d = 7 \/ d = 8 \/ d = 9) by lia.
  cbn [In]. intuition.
Qed.

Lemma field_value_snoc field c :
  field_value (field ++ [c]) = field_value field * 10 + digit_value c.
Proof. unfold field_value. rewrite fold_left_app. reflexivity. Qed.

Lemma field_value_dec_field width :
  forall n, field_value (dec_field width n) = n mod 10 ^ Z.of_nat width.
Proof.
  induction width as [| width IH]; intros n.
  - cbn [dec_field]. change (10 ^ Z.of_nat 0) with 1. rewrite Z.mod_1_r.
    reflexivity.
  - cbn [dec_field]. rewrite field_value_snoc, IH, digit_value_tx
      by (apply Z.mod_pos_bound; lia).
    rewrite Nat2Z.inj_succ, Z.pow_succ_r by lia.
    assert (Hpos : 0 < 10 ^ Z.of_nat width) by (apply Z.pow_pos_nonneg; lia).
    rewrite (Z.rem_mul_r n 10 (10 ^ Z.of_nat width)) by lia. lia.
Qed.

Lemma length_dec_field width : forall n, length (dec_field width n) = width.
Proof.
  induction width as [| width IH]; intros n; cbn [dec_field].
  - reflexivity.
  - rewrite length_app, IH. cbn. lia.
Qed.

(** X5. What DispNum sends can be read back: for one to five digits the
    call appends exactly [digits] characters whose decimal value is the
    number modulo 10^digits, hence the number itself when it has no more
    than [digits] digits. *)
Theorem DispNum_round_trip (number digits : Z) (m : Machine) :
  1 <= digits <= 5 ->
  exists m' field,
    DispNum number digits m = Ok m' /\
    U2TX m' = U2TX m ++ field /\
    Z.of_nat (length field) = digits /\
    field_value field = number mod 10 ^ digits /\
    (0 <= number < 10 ^ digits -> field_value field = number).
Proof.
  intros Hd. rewrite DispNum_field by lia.
  replace (Z.max 1 digits) with digits by lia.
  eexists. exists (dec_field (Z.to_nat digits) number).
  split; [reflexivity |]. rewrite U2TX_set_U2TX. split; [reflexivity |].
  rewrite length_dec_field, field_value_dec_field, Z2Nat.id by lia.
  split; [reflexivity |]. split; [reflexivity |].
  intros Hn. apply Z.mod_small. exact Hn.
Qed.

Lemma DispNum_round_trip_witness :
  exists m' field,
    DispNum 1023 4 boot_machine = Ok m' /\
    U2TX m' = U2TX boot_machine ++ field /\
    Z.of_nat (length field) = 4 /\
    field_value field = 1023 mod 10 ^ 4 /\
    (0 <= 1023 < 10 ^ 4 -> field_value field = 1023).
Proof. apply (DispNum_round_trip 1023 4 boot_machine). lia. Defined.

Lemma tx_char_wrap8 z : tx_char (wrap8 z) = tx_char z.
Proof. unfold tx_char, wrap8. rewrite Z.mod_mod by lia. reflexivity. Qed.

Lemma dec_field_5 n :
  dec_field 5 n =
  map tx_char [char_0 + (n / 10000) mod 10; char_0 + (n / 1000) mod 10;
               char_0 + (n / 100) mod 10; char_0 + (n / 10) mod 10;
               char_0 + n mod 10].
Proof.
  cbn [dec_field app map].
  rewrite !Z.div_div by lia. reflexivity.
Qed.

(** X6. Disp2Dec sends seven characters for every 16-bit value: a space,
    the five decimal digits of the value with leading zeros, and a space;
    the digits read back as the value. *)
Theorem Disp2Dec_sends (value : Z) (m : Machine) :
  0 <= value < 65536 ->
  Disp2Dec value m
  = set_U2TX (U2TX m ++ [tx_char char_space] ++ dec_field 5 value
                     ++ [tx_char char_space]) m /\
  field_value (dec_field 5 value) = value.
Proof.
  intros Hv. split.
  - unfold Disp2Dec. cbn -[Z.div Z.modulo wrap8 tx_char Z.add send dec_field].
    rewrite send_U2TX. cbn [map app]. rewrite !tx_char_wrap8, dec_field_5.
    cbn [map app].
    change (10000 / 10) with 1000. change (1000 / 10) with 100.
    change (100 / 10) with 10. change (10 / 10) with 1.
    repeat f_equal; Z.div_mod_to_equations; lia.
  - rewrite field_value_dec_field. apply Z.mod_small.
    change (10 ^ Z.of_nat 5) with 100000. lia.
Qed.

Lemma Disp2Dec_sends_witness :
  Disp2Dec 65535 boot_machine
  = set_U2TX (U2TX boot_machine ++ [tx_char char_space] ++ dec_field 5 65535
                     ++ [tx_char char_space]) boot_machine /\
  field_value (dec_field 5 65535) = 65535.
Proof. apply (Disp2Dec_sends 65535 boot_machine). lia. Defined.

(** The hexadecimal digit [HEX_CHARS[n]]. *)
Lemma land_15 v : Z.land v 15 = v mod 16.
Proof. change 15 with (Z.ones 4). rewrite Z.land_ones by lia. reflexivity. Qed.

Lemma shiftr_4 v : Z.shiftr v 4 = v / 16.
Proof. rewrite Z.shiftr_div_pow2 by lia. reflexivity. Qed.

(** X7. Disp2Hex sends six characters: a space, "0x", the hexadecimal
    digits of bits 11..8 and 7..4 of the value, and a space.  The digit of
    the low four bits is written to the last place of the buffer and then
    overwritten by the closing space, so it is never sent: two values that
    differ only there give the same output. *)
Theorem Disp2Hex_sends (value : Z) (m : Machine) :
  Disp2Hex value m
  = set_U2TX
      (U2TX m ++
       map tx_char [char_space; char_0; char_x;
                    HEX_CHARS !!! Z.to_nat ((value / 256) mod 16);
                    HEX_CHARS !!! Z.to_nat ((value / 16) mod 16);
                    char_space]) m /\
  (forall value', value' / 16 = value / 16 ->
                  Disp2Hex value' m = Disp2Hex value m).
Proof.
  assert (Hout : forall v,
    Disp2Hex v m
    = set_U2TX
        (U2TX m ++
         map tx_char [char_space; char_0; char_x;
                      HEX_CHARS !!! Z.to_nat ((v / 256) mod 16);
                      HEX_CHARS !!! Z.to_nat ((v / 16) mod 16);
                      char_space]) m).
  { intros v. unfold Disp2Hex.
    cbn -[Z.land Z.shiftr HEX_CHARS lookup_total send].
    rewrite send_U2TX, !shiftr_4, !land_15, Z.div_div by lia.
    reflexivity. }
  split; [apply Hout |].
  intros value' Heq. rewrite !Hout.
  replace (value' / 256) with (value / 256); [rewrite Heq; reflexivity |].
  change 256 with (16 * 16). rewrite <- !Z.div_div by lia. rewrite Heq.
  reflexivity.
Qed.

(** X8. Disp2Hex32 sends eleven characters: a space, "0x", the seven
    hexadecimal digits of bits 31..4 of the value, and a space; as in
    Disp2Hex the digit of the low four bits is overwritten by the closing
    space and never sent. *)
Theorem Disp2Hex32_sends (value : Z) (m : Machine) :
  Disp2Hex32 value m
  = set_U2TX
      (U2TX m ++
       map tx_char [char_space; char_0; char_x;
                    HEX_CHARS !!! Z.to_nat ((value / 16 ^ 7) mod 16);
                    HEX_CHARS !!! Z.to_nat ((value / 16 ^ 6) mod 16);
                    HEX_CHARS !!! Z.to_nat ((value / 16 ^ 5) mod 16);
                    HEX_CHARS !!! Z.to_nat ((value / 16 ^ 4) mod 16);
                    HEX_CHARS !!! Z.to_nat ((value / 16 ^ 3) mod 16);
                    HEX_CHARS !!! Z.to_nat ((value / 16 ^ 2) mod 16);
                    HEX_CHARS !!! Z.to_nat ((value / 16 ^ 1) mod 16);
                    char_space]) m /\
  (forall value', value' / 16 = value / 16 ->
                  Disp2Hex32 value' m = Disp2Hex32 value m).
Proof.
  assert (Hout : forall v,
    Disp2Hex32 v m
    = set_U2TX
        (U2TX m ++
         map tx_char [char_space; char_0; char_x;
                      HEX_CHARS !!! Z.to_nat ((v / 16 / 16 / 16 / 16 / 16 / 16 / 16) mod 16);
                      HEX_CHARS !!! Z.to_nat ((v / 16 / 16 / 16 / 16 / 16 / 16) mod 16);
                      HEX_CHARS !!! Z.to_nat ((v / 16 / 16 / 16 / 16 / 16) mod 16);
                      HEX_CHARS !!! Z.to_nat ((v / 16 / 16 / 16 / 16) mod 16);
                      HEX_CHARS !!! Z.to_nat ((v / 16 / 16 / 16) mod 16);
                      HEX_CHARS !!! Z.to_nat ((v / 16 / 16) mod 16);
                      HEX_CHARS !!! Z.to_nat ((v / 16) mod 16);
                      char_space]) m).
  { intros v. unfold Disp2Hex32.
    cbn -[Z.land Z.shiftr HEX_CHARS lookup_total send].
    rewrite send_U2TX, !shiftr_4, !land_15. reflexivity. }
  split.
  - rewrite Hout. rewrite !Z.div_div by lia. reflexivity.
  - intros value' Heq. rewrite !Hout, Heq. reflexivity.
Qed.

(** X9. InitUART2 takes the baud-rate divisor from a table of three
    entries at index COSC & 7: the read is inside the table exactly for
    the clock selections 0, 1 and 2 (divisors 103, 12 and 12); for every
    other selection it is past the end of the table. *)
Theorem InitUART2_baud_in_range (COSC : Z) :
  (InitUART2_U2BRG COSC = Some 103 <-> COSC mod 8 = 0) /\
  (InitUART2_U2BRG COSC = Some 12 <-> COSC mod 8 = 1 \/ COSC mod 8 = 2) /\
  (InitUART2_U2BRG COSC = None <-> 3 <= COSC mod 8).
Proof.
  unfold InitUART2_U2BRG. change 7 with (Z.ones 3).
  rewrite Z.land_ones by lia. change (2 ^ 3) with 8.
  pose proof (Z.mod_pos_bound COSC 8 ltac:(lia)) as Hr.
  set (r := COSC mod 8) in *.
  assert (Hc : r = 0 \/ r = 1 \/ r = 2 \/ r = 3 \/ r = 4 \/ r = 5 \/ r = 6 \/ r = 7)
    by lia.
  destruct Hc as [-> | [-> | [-> | [-> | [-> | [-> | [-> | ->]]]]]]];
    cbn; repeat split; intros; try lia; try discriminate; intuition lia.
Qed.

(* ------------------------------------------------------------------ *)
(** * Further properties of the timers (timeDelay.c) *)

(** X10. startTimer2 switches Timer2 on with the period register holding
    floor(time_ms * 500 / 128) reduced to 16 bits; the register holds the
    requested period itself exactly for delays up to 16777 ms, beyond
    that it has wrapped. *)
Theorem startTimer2_period (time_ms : Z) (m : Machine) :
  0 <= time_ms < 65536 ->
  let t := timer2 (startTimer2 time_ms m) in
  TON t = 1 /\ TMR t = TMR (timer2 m) /\
  PR t = (time_ms * 500 / 128) mod 65536 /\
  (PR t = time_ms * 500 / 128 <-> time_ms <= 16777).
Proof.
  intros Ht t. subst t. unfold startTimer2. cbn [timer2 set_timer2 TON TMR PR].
  rewrite (wrap32_small time_ms) by lia.
  rewrite (wrap32_small (time_ms * 500)) by lia.
  split; [reflexivity |]. split; [reflexivity |]. split; [reflexivity |].
  unfold wrap16. split.
  - intros Heq.
    pose proof (Z.mod_pos_bound (time_ms * 500 / 128) 65536 ltac:(lia)) as Hb.
    rewrite Heq in Hb. Z.div_mod_to_equations. lia.
  - intros Hle. apply Z.mod_small. Z.div_mod_to_equations. lia.
Qed.

Lemma startTimer2_period_witness :
  let t := timer2 (startTimer2 500 boot_machine) in
  TON t = 1 /\ TMR t = TMR (timer2 boot_machine) /\
  PR t = (500 * 500 / 128) mod 65536 /\
  (PR t = 500 * 500 / 128 <-> 500 <= 16777).
Proof. apply (startTimer2_period 500 boot_machine). lia. Defined.

(** X11. delay_ms loads Timer3 with floor(time_ms * 500 / 16) reduced to
    16 bits, clears its counter and leaves it switched off, and changes
    nothing else; the period is the requested one exactly for delays up
    to 2097 ms. *)
Theorem delay_ms_period (time_ms : Z) (m : Machine) :
  0 <= time_ms < 65536 ->
  let m' := delay_ms time_ms m in
  timer3 m' = mkTimer ((time_ms * 500 / 16) mod 65536) 0 0 /\
  (PR (timer3 m') = time_ms * 500 / 16 <-> time_ms <= 2097) /\
  set_timer3 (timer3 m) m' = m.
Proof.
  intros Ht m'. subst m'. unfold delay_ms. cbn [timer3 set_timer3 PR].
  rewrite (wrap32_small time_ms) by lia.
  rewrite (wrap32_small (time_ms * 500)) by lia.
  split; [reflexivity |]. split; [| destruct m; reflexivity].
  unfold wrap16. split.
  - intros Heq.
    pose proof (Z.mod_pos_bound (time_ms * 500 / 16) 65536 ltac:(lia)) as Hb.
    rewrite Heq in Hb. Z.div_mod_to_equations. lia.
  - intros Hle. apply Z.mod_small. Z.div_mod_to_equations. lia.
Qed.

Lemma delay_ms_period_witness :
  let m' := delay_ms 20 boot_machine in
  timer3 m' = mkTimer ((20 * 500 / 16) mod 65536) 0 0 /\
  (PR (timer3 m') = 20 * 500 / 16 <-> 20 <= 2097) /\
  set_timer3 (timer3 boot_machine) m' = boot_machine.
Proof. apply (delay_ms_period 20 boot_machine). lia. Defined.

(* ------------------------------------------------------------------ *)
(** * Further properties of the button monitor (IOs.c, main.c) *)

(** X12. IOcheck on the table of three buttons: every button ends with
    newState and prevState equal to the level of its own pin; its pressed
    flag becomes 1 exactly on a step from previous level 0 to level 1 and
    is otherwise left as it was (never cleared); the function returns 0
    and changes nothing but the table, which keeps its three entries. *)
Theorem IOcheck_samples_each_button (pins : PortPins) (m : Machine) (i : nat) :
  length (buttons m) = 3%nat ->
  (i < 3)%nat ->
  let b := buttons m !!! i in
  let r := IOcheck pins m in
  let b' := buttons (snd r) !!! i in
  fst r = 0 /\
  newState b' = pin_level pins i /\ prevState b' = pin_level pins i /\
  pressed b' = (if (prevState b =? 0) && (pin_level pins i =? 1)
                then 1 else pressed b) /\
  length (buttons (snd r)) = 3%nat /\
  set_buttons (buttons m) (snd r) = m.
Proof.
  intros Hlen Hi b r b'. subst b r b'.
  destruct (three_buttons (buttons m) Hlen) as (b0 & b1 & b2 & Hb).
  unfold IOcheck. cbn [fst snd]. rewrite Hb, IOcheck_three.
  replace (buttons (set_buttons _ m)) with
    [sampled b0 (PB1 pins); sampled b1 (PB2 pins); sampled b2 (PB3 pins)]
    by reflexivity.
  split; [reflexivity |].
  assert (Hm : set_buttons [b0; b1; b2]
                 (set_buttons [sampled b0 (PB1 pins); sampled b1 (PB2 pins);
                               sampled b2 (PB3 pins)] m) = m).
  { rewrite <- Hb. destruct m; reflexivity. }
  destruct i as [| [| [| i]]]; [| | | lia];
    (repeat split; [reflexivity .. | exact Hm]).
Qed.

Lemma IOcheck_samples_each_button_witness :
  let b := buttons boot_machine !!! 1%nat in
  let r := IOcheck (pins_for 1 pushed) boot_machine in
  let b' := buttons (snd r) !!! 1%nat in
  fst r = 0 /\
  newState b' = pin_level (pins_for 1 pushed) 1 /\
  prevState b' = pin_level (pins_for 1 pushed) 1 /\
  pressed b' = (if (prevState b =? 0) && (pin_level (pins_for 1 pushed) 1 =? 1)
                then 1 else pressed b) /\
  length (buttons (snd r)) = 3%nat /\
  set_buttons (buttons boot_machine) (snd r) = boot_machine.
Proof.
  apply (IOcheck_samples_each_button (pins_for 1 pushed) boot_machine 1);
    [reflexivity | lia].
Defined.

Lemma sampled_twice b level : sampled (sampled b level) level = sampled b level.
Proof.
  unfold sampled. cbn [prevState pressed].
  destruct (Z.eqb_spec level 0) as [-> | Hne].
  - rewrite andb_false_r. reflexivity.
  - destruct (Z.eqb_spec level 1) as [-> | H1].
    + cbn [Z.eqb andb]. reflexivity.
    + rewrite !andb_false_r. reflexivity.
Qed.

(** X13. Sampling twice without a change of the pins is the same as
    sampling once: the second call of IOcheck finds no edge and leaves
    the table as the first one made it. *)
Theorem IOcheck_same_pins_idempotent (pins : PortPins) (m : Machine) :
  length (buttons m) = 3%nat ->
  IOcheck pins (snd (IOcheck pins m)) = IOcheck pins m.
Proof.
  intros Hlen.
  destruct (three_buttons (buttons m) Hlen) as (b0 & b1 & b2 & Hb).
  unfold IOcheck. cbn [snd]. rewrite Hb, IOcheck_three.
  replace (buttons (set_buttons _ m)) with
    [sampled b0 (PB1 pins); sampled b1 (PB2 pins); sampled b2 (PB3 pins)]
    by reflexivity.
  rewrite IOcheck_three, !sampled_twice. destruct m; reflexivity.
Qed.

Lemma IOcheck_same_pins_idempotent_witness :
  IOcheck (pins_for 0 pushed) (snd (IOcheck (pins_for 0 pushed) boot_machine))
  = IOcheck (pins_for 0 pushed) boot_machine.
Proof. apply (IOcheck_same_pins_idempotent (pins_for 0 pushed) boot_machine). reflexivity. Defined.

(** X14. A press followed by a release is always reported: whatever the
    table held before, after a sample with the pin of button [i] at 0 and
    a later sample with it at 1 the pressed flag of button [i] is 1. *)
Theorem IOcheck_press_release_detected (p1 p2 : PortPins) (m : Machine) (i : nat) :
  length (buttons m) = 3%nat ->
  (i < 3)%nat ->
  pin_level p1 i = 0 -> pin_level p2 i = 1 ->
  pressed (buttons (snd (IOcheck p2 (snd (IOcheck p1 m)))) !!! i) = 1.
Proof.
  intros Hlen Hi H1 H2.
  destruct (three_buttons (buttons m) Hlen) as (b0 & b1 & b2 & Hb).
  unfold IOcheck. cbn [snd]. rewrite Hb, IOcheck_three.
  replace (buttons (set_buttons _ m)) with
    [sampled b0 (PB1 p1); sampled b1 (PB2 p1); sampled b2 (PB3 p1)]
    by reflexivity.
  rewrite IOcheck_three.
  destruct i as [| [| [| i]]]; [| | | lia]; cbn in H1, H2;
    cbn -[Z.eqb]; rewrite H1, H2; reflexivity.
Qed.

Lemma IOcheck_press_release_detected_witness :
  pressed (buttons (snd (IOcheck all_released
                           (snd (IOcheck (pins_for 2 pushed) boot_machine))))
           !!! 2%nat) = 1.
Proof.
  apply (IOcheck_press_release_detected (pins_for 2 pushed) all_released
           boot_machine 2); [reflexivity | lia | reflexivity | reflexivity].
Defined.

Lemma clear_three b0 b1 b2 :
  fold_left (fun bs i => let b := bs !!! i in
                         <[i := mkButton 0 (newState b) (prevState b)]> bs)
            (seq 0 3) [b0; b1; b2]
  = [mkButton 0 (newState b0) (prevState b0);
     mkButton 0 (newState b1) (prevState b1);
     mkButton 0 (newState b2) (prevState b2)].
Proof. reflexivity. Qed.

Lemma clear_pressed_flags m i :
  length (buttons m) = 3%nat -> (i < 3)%nat ->
  pressed (buttons (clear_pressed m) !!! i) = 0.
Proof.
  intros Hlen Hi.
  destruct (three_buttons (buttons m) Hlen) as (b0 & b1 & b2 & Hb).
  unfold clear_pressed. rewrite Hb, clear_three.
  destruct i as [| [| [| i]]]; [| | | lia]; reflexivity.
Qed.

(** X15. The clearing loop of main resets the pressed flag of all three
    buttons and keeps their levels; clearing twice is the same as
    clearing once. *)
Theorem clear_pressed_clears_all (m : Machine) (i : nat) :
  length (buttons m) = 3%nat ->
  (i < 3)%nat ->
  let b := buttons m !!! i in
  let b' := buttons (clear_pressed m) !!! i in
  pressed b' = 0 /\ newState b' = newState b /\ prevState b' = prevState b /\
  length (buttons (clear_pressed m)) = 3%nat /\
  clear_pressed (clear_pressed m) = clear_pressed m.
Proof.
  intros Hlen Hi b b'. subst b b'.
  destruct (three_buttons (buttons m) Hlen) as (b0 & b1 & b2 & Hb).
  unfold clear_pressed. rewrite Hb, clear_three.
  replace (buttons (set_buttons _ m)) with
    [mkButton 0 (newState b0) (prevState b0);
     mkButton 0 (newState b1) (prevState b1);
     mkButton 0 (newState b2) (prevState b2)] by reflexivity.
  rewrite clear_three.
  destruct i as [| [| [| i]]]; [| | | lia];
    repeat (split; [reflexivity |]); destruct m; reflexivity.
Qed.

Lemma clear_pressed_clears_all_witness :
  let b := buttons on_pb2_pb3 !!! 1%nat in
  let b' := buttons (clear_pressed on_pb2_pb3) !!! 1%nat in
  pressed b' = 0 /\ newState b' = newState b /\ prevState b' = prevState b /\
  length (buttons (clear_pressed on_pb2_pb3)) = 3%nat /\
  clear_pressed (clear_pressed on_pb2_pb3) = clear_pressed on_pb2_pb3.
Proof.
  apply (clear_pressed_clears_all on_pb2_pb3 1); [reflexivity | lia].
Defined.

(* ------------------------------------------------------------------ *)
(** * Further properties of the main loop (main.c) *)

(** No statement touches the button flag or the PWM counter. *)
Lemma exec_stmt_flag sample s m m' :
  exec_stmt sample s m = Ok m' ->
  buttonFlag m' = buttonFlag m /\ pwmCounter m' = pwmCounter m.
Proof.
  intros Hrun.
  destruct s; cbn [exec_stmt] in Hrun;
    try (injection Hrun as <-; destruct m; split; reflexivity).
  - injection Hrun as <-.
    destruct (updateBrightness_outside sample (period (pwmControl m)) m)
      as (_ & _ & _ & _ & _ & Hc & Hf & _). split; assumption.
  - injection Hrun as <-.
    destruct (updateBrightness_outside sample override m)
      as (_ & _ & _ & _ & _ & Hc & Hf & _). split; assumption.
  - destruct (Z.eq_dec (period (pwmControl m)) 0) as [H0 | Hne].
    + unfold transmitVoltageADC, c_div in Hrun. rewrite H0 in Hrun.
      discriminate Hrun.
    + rewrite transmitVoltageADC_line in Hrun by exact Hne.
      injection Hrun as <-. destruct m; split; reflexivity.
Qed.

Lemma exec_stmts_flag sample k :
  forall m m', exec_stmts sample k m = Ok m' ->
               buttonFlag m' = buttonFlag m /\ pwmCounter m' = pwmCounter m.
Proof.
  induction k as [| s k IH]; intros m m' Hrun; cbn [exec_stmts] in Hrun.
  - injection Hrun as <-. split; reflexivity.
  - destruct (exec_stmt sample s m) as [m1 | |] eqn:Hs; cbn [bind] in Hrun;
      try discriminate Hrun.
    destruct (exec_stmt_flag sample s m m1 Hs) as [Hf Hc].
    destruct (IH m1 m' Hrun) as [Hf' Hc']. split; congruence.
Qed.

Lemma poll_buttons_frame pins m :
  length (buttons m) = 3%nat ->
  let m' := poll_buttons pins m in
  buttonFlag m' = 0 /\ length (buttons m') = 3%nat /\
  currentState m' = currentState m /\ pwmControl m' = pwmControl m.
Proof.
  intros Hlen m'. subst m'. unfold poll_buttons, truthy.
  destruct (Z.eqb_spec (buttonFlag m) 0) as [H0 | Hne]; cbn [negb].
  - repeat split; assumption.
  - destruct (three_buttons (buttons m) Hlen) as (b0 & b1 & b2 & Hb).
    unfold IOcheck. rewrite Hb, IOcheck_three. repeat split.
Qed.

Lemma spec_next_state_idle state :
  is_mode state = true -> spec_next_state state false false false = state.
Proof.
  unfold is_mode. intros H. apply andb_prop in H as [H0 H5].
  assert (Hc : state = 0 \/ state = 1 \/ state = 2 \/ state = 3 \/
               state = 4 \/ state = 5) by lia.
  destruct Hc as [-> | [-> | [-> | [-> | [-> | ->]]]]]; reflexivity.
Qed.

Lemma run_handling sample pins k :
  forall m,
    run (mains (S (length k)) sample pins) (m, Handling k)
    = do m' <- exec_stmts sample k m; Ok (clear_pressed m', LoopTop).
Proof.
  induction k as [| s k IH]; intros m.
  - reflexivity.
  - cbn [length]. change (mains (S (S (length k))) sample pins)
      with (EvMain sample pins :: mains (S (length k)) sample pins).
    cbn [run step exec_stmts].
    destruct (exec_stmt sample s m) as [m1 | |]; cbn [bind];
      [apply IH | reflexivity | reflexivity].
Qed.

(** The statement-by-statement execution and the function agree: from
    the top of the loop, as many steps of the main program as the
    selected case has statements, plus one for the polling and one for
    the clearing, give exactly the result of one pass, and are back at the
    top of the loop; a trap in a statement is a trap of the pass. *)
Lemma run_one_pass (sample : Z) (pins : PortPins) (m : Machine) :
  let m0 := poll_buttons pins m in
  let n := length (case_body (currentState m0) (buttons m0)) in
  run (mains (n + 2) sample pins) (m, LoopTop)
  = do m' <- main_pass sample pins m; Ok (m', LoopTop).
Proof.
  intros m0 n. subst n. rewrite Nat.add_comm.
  change (mains (2 + ?k) sample pins)
    with (EvMain sample pins :: mains (S k) sample pins).
  cbn [run step bind]. fold m0. rewrite run_handling.
  unfold main_pass, handleStateTransition. fold m0.
  destruct (exec_stmts sample (case_body (currentState m0) (buttons m0)) m0);
    reflexivity.
Qed.

(* ------------------------------------------------------------------ *)
(** * Further properties of the PWM generator (Timer 1 interrupt) *)

Lemma T1Interrupt_tick m :
  0 < period (pwmControl m) < 256 ->
  exists m',
    T1Interrupt m = Ok m' /\
    pwmCounter m' = (pwmCounter m + 1) mod period (pwmControl m) /\
    pwmControl m' = set_currentDutyCycle (duty_in_force (pwmControl m)) (pwmControl m) /\
    LED m' = led_level (duty_in_force (pwmControl m)) (pwmCounter m') /\
    set_LED (LED m) (set_pwmCounter (pwmCounter m) (set_pwmControl (pwmControl m) m'))
    = m.
Proof.
  intros Hp.
  destruct m as [st [per base bd cur en ph adc] bs cnt bf led t1 t2 t3 on sa tx].
  cbn [pwmControl period] in Hp.
  unfold T1Interrupt, c_mod. cbn [pwmControl period pwmCounter].
  destruct (Z.eqb_spec per 0) as [H0 | _]; [lia |]. cbn [bind].
  pose proof (Z.mod_pos_bound (cnt + 1) per ltac:(lia)) as Hr.
  rewrite (wrap8_small ((cnt + 1) mod per)) by lia.
  eexists. split; [reflexivity |].
  unfold duty_in_force, upd_pwm, truthy, led_level.
  cbn -[Z.eqb Z.ltb Z.modulo].
  destruct (en =? 0); cbn -[Z.eqb Z.ltb Z.modulo]; repeat split.
Qed.

Lemma duty_in_force_set c :
  duty_in_force (set_currentDutyCycle (duty_in_force c) c) = duty_in_force c.
Proof.
  unfold duty_in_force. destruct c as [per base bd cur en ph adc].
  cbn -[Z.eqb]. destruct (en =? 0); reflexivity.
Qed.

(** The LED levels of [n] ticks in a row. *)
Lemma T1_ticks_levels n :
  forall m,
    0 < period (pwmControl m) < 256 ->
    exists leds m',
      T1_ticks n m = Ok (leds, m') /\
      leds = map (fun j => led_level (duty_in_force (pwmControl m))
                             ((pwmCounter m + Z.of_nat j) mod period (pwmControl m)))
                 (seq 1 n) /\
      (n <> O ->
       pwmCounter m' = (pwmCounter m + Z.of_nat n) mod period (pwmControl m)) /\
      period (pwmControl m') = period (pwmControl m) /\
      duty_in_force (pwmControl m') = duty_in_force (pwmControl m).
Proof.
  induction n as [| n IH]; intros m Hp.
  - exists [], m. repeat split. intros H; contradiction.
  - destruct (T1Interrupt_tick m Hp) as (m1 & Hrun & Hcnt & Hpwm & Hled & _).
    assert (Hper1 : period (pwmControl m1) = period (pwmControl m))
      by (rewrite Hpwm; reflexivity).
    assert (Hd1 : duty_in_force (pwmControl m1) = duty_in_force (pwmControl m))
      by (rewrite Hpwm; apply duty_in_force_set).
    destruct (IH m1) as (leds & m' & Hrun' & Hleds & Hcnt' & Hper' & Hd');
      [rewrite Hper1; exact Hp |].
    exists (LED m1 :: leds), m'.
    cbn [T1_ticks]. rewrite Hrun. cbn [bind]. rewrite Hrun'. cbn [bind fst snd].
    split; [reflexivity |].
    split.
    + cbn [seq map]. f_equal.
      * rewrite Hled, Hcnt. reflexivity.
      * rewrite Hleds, <- (seq_shift n 1), map_map, Hd1, Hper1, Hcnt.
        apply map_ext. intros j. f_equal.
        rewrite Zplus_mod_idemp_l. f_equal. lia.
    + split; [| split; congruence].
      intros _. destruct n as [| n'].
      * cbn [T1_ticks] in Hrun'. injection Hrun' as _ <-. rewrite Hcnt.
        reflexivity.
      * rewrite Hcnt' by discriminate. rewrite Hper1, Hcnt.
        rewrite Zplus_mod_idemp_l. f_equal. lia.
Qed.

(** The counter values of one frame are the residues 0 .. period-1, each
    once. *)
Lemma frame_residues (c : Z) (P : nat) :
  (0 < P)%nat ->
  Permutation (map (fun j => (c + Z.of_nat j) mod Z.of_nat P) (seq 1 P))
              (map Z.of_nat (seq 0 P)).
Proof.
  intros HP. apply Permutation.NoDup_Permutation_bis.
  - apply NoDup_map_NoDup_ForallPairs; [| apply seq_NoDup].
    intros a b Ha Hb Heq. apply in_seq in Ha, Hb.
    assert (Hz : (c + Z.of_nat a) mod Z.of_nat P = (c + Z.of_nat b) mod Z.of_nat P)
      by exact Heq.
    clear Heq.
    assert (Hdiff : (Z.of_nat a - Z.of_nat b) mod Z.of_nat P = 0).
    { replace (Z.of_nat a - Z.of_nat b)
        with ((c + Z.of_nat a) - (c + Z.of_nat b)) by lia.
      rewrite Zminus_mod, Hz, Z.sub_diag. apply Z.mod_0_l. lia. }
    apply Z.mod_divide in Hdiff as [k Hk]; [| lia].
    assert (Hk0 : k = 0) by nia.
    subst k. lia.
  - rewrite !length_map, !length_seq. lia.
  - intros x Hx. apply in_map_iff in Hx as (j & <- & _).
    apply in_map_iff.
    pose proof (Z.mod_pos_bound (c + Z.of_nat j) (Z.of_nat P) ltac:(lia)) as Hb.
    exists (Z.to_nat ((c + Z.of_nat j) mod Z.of_nat P)).
    split; [lia |]. apply in_seq. lia.
Qed.

Lemma high_below (duty : Z) (n : nat) :
  0 <= duty ->
  Z.of_nat (count_occ Z.eq_dec (map (led_level duty) (map Z.of_nat (seq 0 n))) 1)
  = Z.min duty (Z.of_nat n).
Proof.
  intros Hd. induction n as [| n IH].
  - cbn. lia.
  - rewrite seq_S, !map_app, count_occ_app, Nat2Z.inj_add, IH.
    cbn [map Nat.add count_occ]. unfold led_level.
    destruct (Z.ltb_spec (Z.of_nat n) duty);
      destruct (Z.eq_dec _ 1) as [E | E]; try discriminate E;
      try (exfalso; apply E; reflexivity); cbn [Z.of_nat]; lia.
Qed.

(** X18. The duty cycle is rendered exactly: over one frame of [period]
    Timer 1 ticks, from any counter value, the LED is driven high in
    min(duty, period) ticks, where duty is baseDutyCycle with blink
    disabled and currentDutyCycle with blink enabled; after the frame the
    counter is back where it was (modulo the period). *)
Theorem T1_frame_duty (m : Machine) :
  0 < period (pwmControl m) < 256 ->
  0 <= duty_in_force (pwmControl m) ->
  exists leds m',
    T1_ticks (Z.to_nat (period (pwmControl m))) m = Ok (leds, m') /\
    Z.of_nat (length leds) = period (pwmControl m) /\
    Z.of_nat (high_ticks leds)
    = Z.min (duty_in_force (pwmControl m)) (period (pwmControl m)) /\
    pwmCounter m' = pwmCounter m mod period (pwmControl m).
Proof.
  intros Hp Hd.
  destruct (T1_ticks_levels (Z.to_nat (period (pwmControl m))) m Hp)
    as (leds & m' & Hrun & Hleds & Hcnt & _).
  exists leds, m'. split; [exact Hrun |].
  set (P := Z.to_nat (period (pwmControl m))) in *.
  assert (HP : Z.of_nat P = period (pwmControl m)) by lia.
  split; [rewrite Hleds, length_map, length_seq; exact HP |].
  split.
  - unfold high_ticks. rewrite Hleds, <- HP.
    rewrite <- (map_map (fun j => (pwmCounter m + Z.of_nat j) mod Z.of_nat P)
                        (led_level (duty_in_force (pwmControl m)))).
    assert (Hperm := frame_residues (pwmCounter m) P ltac:(lia)).
    apply (Permutation_map (led_level (duty_in_force (pwmControl m)))) in Hperm.
    rewrite (proj1 (Permutation_count_occ Z.eq_dec _ _) Hperm 1).
    apply high_below. exact Hd.
  - rewrite Hcnt by lia. rewrite HP.
    rewrite <- (Z.mul_1_l (period (pwmControl m))) at 1.
    apply Z.mod_add. lia.
Qed.

Lemma T1_frame_duty_witness :
  let m := updateBrightness 512 0 boot_machine in
  exists leds m',
    T1_ticks (Z.to_nat (period (pwmControl m))) m = Ok (leds, m') /\
    Z.of_nat (length leds) = period (pwmControl m) /\
    Z.of_nat (high_ticks leds)
    = Z.min (duty_in_force (pwmControl m)) (period (pwmControl m)) /\
    pwmCounter m' = pwmCounter m mod period (pwmControl m).
Proof.
  apply (T1_frame_duty (updateBrightness 512 0 boot_machine));
    [vm_compute; split; reflexivity | vm_compute; discriminate].
Defined.

(* ------------------------------------------------------------------ *)
(** * Further properties of the blink modulator (Timer 2 interrupt) *)

(** X19. With blink disabled the Timer 2 handler changes nothing.  With
    blink enabled it inverts blinkState and sets currentDutyCycle to
    blinkDutyCycle when the new phase is "on" and to 0 otherwise, so of
    any two ticks in a row one is dark and one is lit; nothing outside
    currentDutyCycle and blinkState changes, and two ticks bring a phase
    of 0 or 1 back to itself. *)
Theorem T2Interrupt_alternates (m : Machine) :
  let c := pwmControl m in
  let c1 := pwmControl (T2Interrupt m) in
  let c2 := pwmControl (T2Interrupt (T2Interrupt m)) in
  (blinkEnabled c = 0 -> T2Interrupt m = m) /\
  (blinkEnabled c <> 0 ->
   blinkState c1 = lnot (blinkState c) /\
   currentDutyCycle c1 = (if blinkState c =? 0 then blinkDutyCycle c else 0) /\
   currentDutyCycle c2 = (if blinkState c =? 0 then 0 else blinkDutyCycle c) /\
   (blinkState c = 0 \/ blinkState c = 1 -> blinkState c2 = blinkState c) /\
   set_currentDutyCycle (currentDutyCycle c) (set_blinkState (blinkState c) c1) = c /\
   set_pwmControl c (T2Interrupt m) = m).
Proof.
  destruct m as [st [per base bd cur en ph adc] bs cnt bf led t1 t2 t3 on sa tx].
  cbn zeta. cbn [pwmControl blinkEnabled]. split.
  - intros ->. reflexivity.
  - intros Hen. unfold T2Interrupt, upd_pwm, truthy, lnot.
    cbn -[Z.eqb].
    destruct (Z.eqb_spec en 0) as [H0 | _]; [contradiction |].
    cbn -[Z.eqb].
    destruct (Z.eqb_spec en 0) as [H0 | _]; [contradiction |].
    cbn -[Z.eqb].
    split; [reflexivity |].
    split; [destruct (ph =? 0); reflexivity |].
    split; [destruct (ph =? 0); reflexivity |].
    split; [intros [-> | ->]; reflexivity |].
    split; reflexivity.
Qed.

(* ------------------------------------------------------------------ *)
(** * Further invariants of the reachable states *)

Lemma view_ok_mid v : view_ok v = true -> view_mid v = true.
Proof.
  destruct v as [[st en] ton]. unfold view_ok, view_mid, is_bit.
  intros H. apply andb_prop in H as [H Hc]. apply andb_prop in H as [Hm He].
  rewrite Hm, He. cbn [andb].
  apply orb_prop in Hc as [Hc | Hc].
  - rewrite Hc. reflexivity.
  - apply andb_prop in Hc as [Hc _]. rewrite Hc. apply orb_true_r.
Qed.

Lemma path_ok_mid k v : path_ok k v = true -> view_mid v = true.
Proof.
  destruct k as [| s k]; cbn [path_ok]; intros H.
  - apply view_ok_mid, H.
  - apply andb_prop in H as [H _]. exact H.
Qed.

(** The statements of a case, started in a good state at the top of the
    loop, keep the mode defined and Timer2 in step with the blink flag. *)
Lemma case_body_path st en ton btns :
  view_ok (st, en, ton) = true ->
  path_ok (case_body st btns) (st, en, ton) = true.
Proof.
  unfold view_ok, is_mode. intros H.
  apply andb_prop in H as [H Hc]. apply andb_prop in H as [Hm He].
  apply andb_prop in Hm as [H0 H5]. apply Z.eqb_eq in He. subst ton.
  assert (Hst : st = 0 \/ st = 1 \/ st = 2 \/ st = 3 \/ st = 4 \/ st = 5) by lia.
  assert (Hen : en = 0 \/ en = 1 /\ is_blink_mode st = true).
  { apply orb_prop in Hc as [Hc | Hc]; [left; lia |].
    apply andb_prop in Hc as [Hc Hb]. right. split; [lia | exact Hb]. }
  unfold case_body.
  destruct Hst as [-> | [-> | [-> | [-> | [-> | ->]]]]];
    destruct Hen as [-> | [-> Hb]]; try discriminate Hb;
    destruct (btn btns 0), (btn btns 1), (btn btns 2); reflexivity.
Qed.

Lemma exec_stmt_view sample s m m' :
  exec_stmt sample s m = Ok m' ->
  blink_view m' = view_after (blink_view m) s.
Proof.
  intros Hrun. unfold blink_view.
  destruct s; cbn [exec_stmt] in Hrun;
    try (injection Hrun as <-; destruct m as [? [] ? ? ? ? ? [] ? ? ? ?];
         reflexivity).
  - injection Hrun as <-.
    destruct (updateBrightness_outside sample (period (pwmControl m)) m)
      as (_ & _ & _ & Hst & _ & _ & _ & _ & Ht2 & _).
    rewrite Hst, Ht2, updateBrightness_pwm. cbn zeta.
    destruct (blinkEnabled (pwmControl m) =? 0); reflexivity.
  - injection Hrun as <-.
    destruct (updateBrightness_outside sample override m)
      as (_ & _ & _ & Hst & _ & _ & _ & _ & Ht2 & _).
    rewrite Hst, Ht2, updateBrightness_pwm. cbn zeta.
    destruct (blinkEnabled (pwmControl m) =? 0); reflexivity.
  - destruct (Z.eq_dec (period (pwmControl m)) 0) as [H0 | Hne].
    + unfold transmitVoltageADC, c_div in Hrun. rewrite H0 in Hrun.
      discriminate Hrun.
    + rewrite transmitVoltageADC_line in Hrun by exact Hne.
      injection Hrun as <-. reflexivity.
Qed.

Lemma T1Interrupt_view m m' :
  T1Interrupt m = Ok m' -> blink_view m' = blink_view m.
Proof.
  unfold T1Interrupt, c_mod.
  destruct (period (pwmControl m) =? 0); cbn [bind]; [discriminate |].
  intros Hrun. injection Hrun as <-.
  destruct m as [? [] ? ? ? ? ? [] ? ? ? ?]. reflexivity.
Qed.

Lemma T2Interrupt_view m : blink_view (T2Interrupt m) = blink_view m.
Proof.
  unfold blink_view. rewrite T2Interrupt_pwm. cbn zeta.
  unfold T2Interrupt, truthy.
  destruct (blinkEnabled (pwmControl m) =? 0); reflexivity.
Qed.

Lemma poll_buttons_view pins m : blink_view (poll_buttons pins m) = blink_view m.
Proof. unfold poll_buttons. destruct (truthy (buttonFlag m)); reflexivity. Qed.

Lemma step_config_ok e c c' :
  config_ok c = true -> step e c = Ok c' -> config_ok c' = true.
Proof.
  destruct c as [m pc]. intros Hok Hstep.
  destruct e as [sample pins | | | |]; cbn [step] in Hstep.
  - destruct pc as [| [| s k]].
    + injection Hstep as <-. cbn [config_ok] in *.
      rewrite <- poll_buttons_view with (pins := pins) in Hok.
      unfold blink_view in *. apply case_body_path. exact Hok.
    + injection Hstep as <-. exact Hok.
    + destruct (exec_stmt sample s m) as [m1 | |] eqn:Hs; cbn [bind] in Hstep;
        try discriminate Hstep.
      injection Hstep as <-. cbn [config_ok path_ok] in *.
      apply andb_prop in Hok as [_ Hk].
      rewrite (exec_stmt_view sample s m m1 Hs). exact Hk.
  - destruct (T1Interrupt m) as [m1 | |] eqn:Ht; cbn [bind] in Hstep;
      try discriminate Hstep.
    injection Hstep as <-. cbn [config_ok] in *.
    rewrite (T1Interrupt_view m m1 Ht). exact Hok.
  - injection Hstep as <-. cbn [config_ok] in *.
    rewrite T2Interrupt_view. exact Hok.
  - injection Hstep as <-. exact Hok.
  - injection Hstep as <-. exact Hok.
Qed.

Lemma Reachable_config_ok c : Reachable c -> config_ok c = true.
Proof.
  induction 1 as [| e c c' _ IH _ Hstep].
  - reflexivity.
  - exact (step_config_ok e c c' IH Hstep).
Qed.

Lemma config_ok_mid c : config_ok c = true -> view_mid (blink_view (fst c)) = true.
Proof.
  destruct c as [m [| k]]; cbn [config_ok fst]; intros H.
  - apply view_ok_mid, H.
  - apply (path_ok_mid k), H.
Qed.

(** X20. From boot the mode is always one of the six defined values, at
    every statement and under every interleaving of the interrupt
    handlers: the default branch of the switch is never taken. *)
Theorem Reachable_mode_defined (c : Config) :
  Reachable c ->
  0 <= currentState (fst c) <= 5 /\
  Mode_of_Z (currentState (fst c)) <> None.
Proof.
  intros Hr. pose proof (config_ok_mid c (Reachable_config_ok c Hr)) as H.
  unfold view_mid, blink_view, is_mode in H.
  apply andb_prop in H as [H _]. apply andb_prop in H as [H _].
  apply andb_prop in H as [H0 H5].
  assert (Hst : 0 <= currentState (fst c) <= 5) by lia.
  split; [exact Hst |].
  assert (Hc : currentState (fst c) = 0 \/ currentState (fst c) = 1 \/
               currentState (fst c) = 2 \/ currentState (fst c) = 3 \/
               currentState (fst c) = 4 \/ currentState (fst c) = 5) by lia.
  destruct Hc as [-> | [-> | [-> | [-> | [-> | ->]]]]]; discriminate.
Qed.

Lemma Reachable_mode_defined_witness :
  0 <= currentState (fst after_blink_call) <= 5 /\
  Mode_of_Z (currentState (fst after_blink_call)) <> None.
Proof.
  apply (Reachable_mode_defined after_blink_call).
  apply (run_Reachable press_then_blink (boot_machine, LoopTop));
    [apply Reachable_boot | vm_compute; reflexivity | vm_compute; reflexivity].
Defined.


Lemma sampled_ok b level :
  button_ok b = true -> is_bit level = true -> button_ok (sampled b level) = true.
Proof.
  unfold button_ok, sampled. cbn [pressed newState prevState].
  intros Hb Hl. apply andb_prop in Hb as [Hb _]. apply andb_prop in Hb as [Hp _].
  rewrite Hl. rewrite !andb_true_r.
  destruct ((prevState b =? 0) && (level =? 1)); [reflexivity | exact Hp].
Qed.

Lemma poll_buttons_ok pins m :
  pins_ok pins = true -> buttons_ok (buttons m) = true ->
  is_bit (buttonFlag m) = true ->
  buttons_ok (buttons (poll_buttons pins m)) = true /\
  is_bit (buttonFlag (poll_buttons pins m)) = true /\
  pwmCounter (poll_buttons pins m) = pwmCounter m.
Proof.
  intros Hp Hb Hf. unfold poll_buttons.
  destruct (truthy (buttonFlag m)); [| repeat split; assumption].
  unfold buttons_ok in Hb. apply andb_prop in Hb as [Hlen Hall].
  apply Nat.eqb_eq in Hlen.
  destruct (three_buttons (buttons m) Hlen) as (b0 & b1 & b2 & Hbs).
  unfold IOcheck. rewrite Hbs, IOcheck_three.
  rewrite Hbs in Hall. cbn [forallb] in Hall.
  apply andb_prop in Hall as [H0 Hall]. apply andb_prop in Hall as [H1 Hall].
  apply andb_prop in Hall as [H2 _].
  unfold pins_ok in Hp. apply andb_prop in Hp as [Hp Hc].
  apply andb_prop in Hp as [Ha Hb'].
  split; [| split; reflexivity].
  cbn [buttons set_buttons set_buttonFlag]. unfold buttons_ok.
  cbn [length Nat.eqb forallb andb].
  unfold PB1, PB2, PB3.
  rewrite !sampled_ok by assumption. reflexivity.
Qed.

Lemma clear_pressed_ok m :
  buttons_ok (buttons m) = true -> buttons_ok (buttons (clear_pressed m)) = true.
Proof.
  intros Hb. unfold buttons_ok in Hb. apply andb_prop in Hb as [Hlen Hall].
  apply Nat.eqb_eq in Hlen.
  destruct (three_buttons (buttons m) Hlen) as (b0 & b1 & b2 & Hbs).
  unfold clear_pressed. rewrite Hbs, clear_three.
  rewrite Hbs in Hall. cbn [forallb] in Hall.
  apply andb_prop in Hall as [H0 Hall]. apply andb_prop in Hall as [H1 Hall].
  apply andb_prop in Hall as [H2 _].
  unfold button_ok in *.
  apply andb_prop in H0 as [H0 H0p]. apply andb_prop in H0 as [_ H0n].
  apply andb_prop in H1 as [H1 H1p]. apply andb_prop in H1 as [_ H1n].
  apply andb_prop in H2 as [H2 H2p]. apply andb_prop in H2 as [_ H2n].
  cbn [buttons set_buttons]. unfold buttons_ok, button_ok.
  cbn [length Nat.eqb forallb pressed newState prevState].
  rewrite H0p, H0n, H1p, H1n, H2p, H2n. reflexivity.
Qed.

Lemma step_io_ok e c c' :
  period (pwmControl (fst c)) = 50 ->
  valid_event e = true ->
  io_ok (fst c) -> step e c = Ok c' -> io_ok (fst c').
Proof.
  destruct c as [m pc]. cbn [fst]. intros Hper Hv (Hb & Hf & Hc) Hstep.
  destruct e as [sample pins | | | |]; cbn [step] in Hstep.
  - assert (Hpins : pins_ok pins = true).
    { cbn [valid_event] in Hv. unfold pins_ok.
      repeat (apply andb_prop in Hv as [Hv ?]).
      repeat (apply andb_true_intro; split); assumption. }
    destruct pc as [| [| s k]].
    + injection Hstep as <-. cbn [fst].
      destruct (poll_buttons_ok pins m Hpins Hb Hf) as (Hb' & Hf' & Hc').
      repeat split; try assumption; rewrite Hc'; lia.
    + injection Hstep as <-. cbn [fst].
      split; [apply clear_pressed_ok, Hb |]. split; [exact Hf | exact Hc].
    + destruct (exec_stmt sample s m) as [m1 | |] eqn:Hs; cbn [bind] in Hstep;
        try discriminate Hstep.
      injection Hstep as <-. cbn [fst].
      destruct (exec_stmt_flag sample s m m1 Hs) as [Hf1 Hc1].
      destruct (exec_stmt_runs sample s m) as (m2 & Hs2 & _ & _ & Hb2);
        [rewrite Hper; discriminate |].
      rewrite Hs in Hs2. injection Hs2 as <-.
      unfold io_ok. rewrite Hb2, Hf1, Hc1. repeat split; assumption || lia.
  - destruct (T1Interrupt_tick m) as (m1 & Ht & Hcnt & _ & _ & Hrest);
      [rewrite Hper; lia |].
    rewrite Ht in Hstep. cbn [bind] in Hstep. injection Hstep as <-. cbn [fst].
    pose proof (Z.mod_pos_bound (pwmCounter m + 1) 50 ltac:(lia)) as Hr.
    rewrite Hper in Hcnt.
    assert (Hsame : buttons m1 = buttons m /\ buttonFlag m1 = buttonFlag m).
    { rewrite <- Hrest. destruct m1; split; reflexivity. }
    destruct Hsame as [Hsb Hsf]. unfold io_ok. rewrite Hsb, Hsf, Hcnt.
    repeat split; assumption || lia.
  - injection Hstep as <-. cbn [fst].
    assert (Hsame : buttons (T2Interrupt m) = buttons m /\
                    buttonFlag (T2Interrupt m) = buttonFlag m /\
                    pwmCounter (T2Interrupt m) = pwmCounter m).
    { unfold T2Interrupt. destruct (truthy (blinkEnabled (pwmControl m)));
        repeat split. }
    destruct Hsame as (Hsb & Hsf & Hsc). unfold io_ok. rewrite Hsb, Hsf, Hsc.
    repeat split; assumption || lia.
  - injection Hstep as <-. cbn [fst]. unfold T3Interrupt.
    split; [exact Hb |]. split; [exact Hf | exact Hc].
  - injection Hstep as <-. cbn [fst]. unfold io_ok, CNInterrupt.
    cbn [buttons buttonFlag pwmCounter set_buttonFlag].
    repeat split; (exact Hb || reflexivity || lia).
Qed.

(** X22. In every reachable state the button table has exactly three
    entries whose fields are 0 or 1, buttonFlag is 0 or 1, and the PWM
    counter lies in [0, period): no array index and no counter value is
    ever out of range. *)
Theorem Reachable_io_in_range (c : Config) :
  Reachable c ->
  length (buttons (fst c)) = 3%nat /\
  buttons_ok (buttons (fst c)) = true /\
  (buttonFlag (fst c) = 0 \/ buttonFlag (fst c) = 1) /\
  0 <= pwmCounter (fst c) < period (pwmControl (fst c)).
Proof.
  intros Hr.
  assert (Hio : io_ok (fst c)).
  { induction Hr as [| e c c' Hr IH Hv Hstep].
    - repeat split; (reflexivity || (cbn; lia)).
    - destruct (Reachable_ok c Hr) as [[Hper _] _].
      exact (step_io_ok e c c' Hper Hv IH Hstep). }
  destruct (Reachable_ok c Hr) as [[Hper _] _].
  destruct Hio as (Hb & Hf & Hc).
  pose proof Hb as Hb'. unfold buttons_ok in Hb'.
  apply andb_prop in Hb' as [Hlen _]. apply Nat.eqb_eq in Hlen.
  unfold is_bit in Hf. rewrite Hper.
  repeat split; try assumption; lia.
Qed.

Lemma Reachable_io_in_range_witness :
  length (buttons (fst after_blink_call)) = 3%nat /\
  buttons_ok (buttons (fst after_blink_call)) = true /\
  (buttonFlag (fst after_blink_call) = 0 \/ buttonFlag (fst after_blink_call) = 1) /\
  0 <= pwmCounter (fst after_blink_call)
    < period (pwmControl (fst after_blink_call)).
Proof.
  apply (Reachable_io_in_range after_blink_call).
  apply (run_Reachable press_then_blink (boot_machine, LoopTop));
    [apply Reachable_boot | vm_compute; reflexivity | vm_compute; reflexivity].
Defined.

(* ------------------------------------------------------------------ *)
(** * Further properties of the modes (handleStateTransition) *)

Lemma exec_stmts_silent sample k :
  forallb (fun s => negb (is_transmit_stmt s)) k = true ->
  forall m, exists m', exec_stmts sample k m = Ok m' /\ U2TX m' = U2TX m.
Proof.
  induction k as [| s k IH]; intros Hk m.
  - exists m. split; reflexivity.
  - cbn [forallb] in Hk. apply andb_prop in Hk as [Hs Hk].
    assert (Hone : exists m1, exec_stmt sample s m = Ok m1 /\ U2TX m1 = U2TX m).
    { destruct s; try discriminate Hs; cbn [exec_stmt];
        try (eexists; split; [reflexivity |]; destruct m; reflexivity).
      - eexists; split; [reflexivity |].
        apply (updateBrightness_outside sample (period (pwmControl m)) m).
      - eexists; split; [reflexivity |].
        apply (updateBrightness_outside sample override m). }
    destruct Hone as (m1 & Hrun & Htx).
    destruct (IH Hk m1) as (m' & Hrun' & Htx').
    exists m'. cbn [exec_stmts]. rewrite Hrun. cbn [bind].
    split; [exact Hrun' | congruence].
Qed.

Lemma case_body_silent state btns :
  is_transmit_mode state = false ->
  forallb (fun s => negb (is_transmit_stmt s)) (case_body state btns) = true.
Proof.
  unfold is_transmit_mode, case_body. intros H.
  apply orb_false_elim in H as [H4 H5]. rewrite H4, H5.
  repeat match goal with
         | |- context [state =? ?k] => destruct (state =? k)
         end;
    destruct (btn btns 0), (btn btns 1), (btn btns 2); reflexivity.
Qed.

(** X23. Telemetry is sent in the two transmit modes only: in Off,
    OffBlink, On, OnBlink and for an undefined mode value a pass of
    handleStateTransition always returns (there is no division on these
    paths, whatever the period) and writes nothing to the transmitter. *)
Theorem no_telemetry_outside_transmit (sample : Z) (m : Machine) :
  is_transmit_mode (currentState m) = false ->
  exists m', handleStateTransition sample m = Ok m' /\ U2TX m' = U2TX m.
Proof.
  intros H. unfold handleStateTransition.
  apply exec_stmts_silent, case_body_silent, H.
Qed.

Lemma no_telemetry_outside_transmit_witness :
  exists m', handleStateTransition 512 on_pb2_pb3 = Ok m' /\
             U2TX m' = U2TX on_pb2_pb3.
Proof. apply (no_telemetry_outside_transmit 512 on_pb2_pb3). reflexivity. Defined.




(* ------------------------------------------------------------------ *)
(** * Further properties of the brightness controller (PWM.c) *)

(** X26. The main loop calls updateBrightness on every pass; with the same
    sample and the same argument a second call changes nothing. *)
Theorem updateBrightness_idempotent (sample ov : Z) (m : Machine) :
  updateBrightness sample ov (updateBrightness sample ov m)
  = updateBrightness sample ov m.
Proof.
  destruct m as [st [per base bd cur en ph adc] bs cnt bf led t1 t2 t3 on sa tx].
  unfold updateBrightness, do_ADC, startTimer1, upd_pwm.
  cbn -[Z.eqb scale_duty wrap16 truthy lnot].
  rewrite !truthy_lnot.
  destruct (ov =? 0) eqn:Hov; cbn -[Z.eqb scale_duty wrap16 truthy lnot];
    rewrite ?truthy_lnot;
    destruct (en =? 0) eqn:Hen; cbn -[Z.eqb scale_duty wrap16 truthy lnot];
    rewrite ?truthy_lnot, ?Hov, ?Hen;
    cbn -[Z.eqb scale_duty wrap16 truthy lnot];
    rewrite ?truthy_lnot, ?Hov, ?Hen; try reflexivity;
    cbn -[Z.eqb scale_duty wrap16 truthy lnot];
    unfold truthy; destruct (ph =? 0); reflexivity.
Qed.

(** X27. The main loop calls blink() on every pass of a blink mode: the
    call loads the Timer2 period for 500 ms (1953) and switches the timer
    on without touching its counter, so repeating it changes nothing; and
    stopBlink after blink is the same as stopBlink alone, as is stopBlink
    after stopBlink. *)
Theorem blink_repeatable (m : Machine) :
  timer2 (blink m) = mkTimer 1953 (TMR (timer2 m)) 1 /\
  blink (blink m) = blink m /\
  stopBlink (blink m) = stopBlink m /\
  stopBlink (stopBlink m) = stopBlink m.
Proof.
  destruct m as [st [per base bd cur en ph adc] bs cnt bf led t1 [pr tmr ton] t3 on sa tx].
  repeat split.
Qed.

(** X28. A zero period is the only way for the two dividing routines to
    fail: the Timer 1 handler and transmitVoltageADC end in a math error
    exactly when the period is 0, and return otherwise. *)
Theorem division_traps_iff_zero_period (m : Machine) :
  (T1Interrupt m = MathError <-> period (pwmControl m) = 0) /\
  (transmitVoltageADC m = MathError <-> period (pwmControl m) = 0) /\
  (period (pwmControl m) <> 0 ->
   (exists m', T1Interrupt m = Ok m') /\
   (exists m', transmitVoltageADC m = Ok m')).
Proof.
  assert (Hzero : period (pwmControl m) = 0 ->
                  T1Interrupt m = MathError /\ transmitVoltageADC m = MathError).
  { intros H0. unfold T1Interrupt, transmitVoltageADC, c_mod, c_div.
    rewrite H0. split; reflexivity. }
  assert (Hok : period (pwmControl m) <> 0 ->
                (exists m', T1Interrupt m = Ok m') /\
                (exists m', transmitVoltageADC m = Ok m')).
  { intros Hne. split.
    - destruct (T1Interrupt_pwm m Hne) as (m' & Hrun & _). eauto.
    - rewrite transmitVoltageADC_line by exact Hne. eauto. }
  split; [| split; [| exact Hok]].
  - split; [| apply Hzero].
    intros Htrap. destruct (Z.eq_dec (period (pwmControl m)) 0) as [H0 | Hne];
      [exact H0 |].
    destruct (Hok Hne) as [[m' Hrun] _]. congruence.
  - split; [| apply Hzero].
    intros Htrap. destruct (Z.eq_dec (period (pwmControl m)) 0) as [H0 | Hne];
      [exact H0 |].
    destruct (Hok Hne) as [_ [m' Hrun]]. congruence.
Qed.

(* ------------------------------------------------------------------ *)
(** * Passes of the main loop under interrupts *)

(** A run in which a Timer 1 tick falls into a pass in mode Off: PB1 is
    pressed and released (Off to On), one pass in mode On sets the
    brightness from sample 512 and starts Timer1, PB1 is pressed and
    released again (On to Off); in the following pass the tick comes
    after [LED = 0] and before stopTimer1. *)
Definition into_off_pass : list Event :=
  [EvCN] ++ mains 7 512 (pins_for 0 pushed)
  ++ [EvCN] ++ mains 8 512 all_released
  ++ mains 3 512 all_released
  ++ [EvCN] ++ mains 3 512 (pins_for 0 pushed)
  ++ [EvCN] ++ mains 4 512 all_released
  ++ mains 3 512 all_released.

Definition off_pass_with_tick : list Event :=
  into_off_pass ++ [EvT1] ++ mains 4 512 all_released.

Definition config_after (es : list Event) : Config :=
  match run es (boot_machine, LoopTop) with
  | Ok c => c
  | _ => (boot_machine, LoopTop)
  end.

Lemma config_after_Reachable es :
  forallb valid_event es = true ->
  (exists c, run es (boot_machine, LoopTop) = Ok c) ->
  Reachable (config_after es).
Proof.
  intros Hv [c Hrun]. unfold config_after. rewrite Hrun.
  exact (run_Reachable es (boot_machine, LoopTop) c Reachable_boot Hv Hrun).
Qed.

Lemma off_pass_with_tick_Reachable : Reachable (config_after off_pass_with_tick).
Proof.
  apply config_after_Reachable; [vm_compute; reflexivity |].
  eexists. vm_compute. reflexivity.
Qed.

Lemma Reachable_io_ok c : Reachable c -> io_ok (fst c).
Proof.
  induction 1 as [| e c c' Hr IH Hv Hstep].
  - repeat split; (reflexivity || (cbn; lia)).
  - destruct (Reachable_ok c Hr) as [[Hper _] _].
    exact (step_io_ok e c c' Hper Hv IH Hstep).
Qed.

(** An interrupt handler leaves the program counter, the button table,
    the switches and the settled part alone. *)
Lemma interrupt_frame e m pc m' pc' :
  is_main e = false ->
  step e (m, pc) = Ok (m', pc') ->
  pc' = pc /\ buttons m' = buttons m /\
  settled m' = settled m /\ switches m' = switches m.
Proof.
  intros He Hstep. destruct e as [sample pins | | | |]; try discriminate He;
    cbn [step] in Hstep.
  - unfold T1Interrupt, c_mod in Hstep.
    destruct (period (pwmControl m) =? 0); cbn [bind] in Hstep;
      [discriminate Hstep |].
    injection Hstep as <- <-.
    destruct m as [st [per base bd cur en ph adc] bs cnt bf led t1 t2 t3 on sa tx].
    repeat split.
  - injection Hstep as <- <-. unfold T2Interrupt.
    destruct m as [st [per base bd cur en ph adc] bs cnt bf led t1 t2 t3 on sa tx].
    cbn [pwmControl blinkEnabled]. destruct (truthy en); repeat split.
  - injection Hstep as <- <-. repeat split.
  - injection Hstep as <- <-. repeat split.
Qed.

Lemma case_body_idle state btns :
  is_mode state = true ->
  btn btns 0 = false -> btn btns 1 = false -> btn btns 2 = false ->
  transitions (case_body state btns) = 0%nat.
Proof.
  unfold is_mode. intros H H0 H1 H2. apply andb_prop in H as [Hlo Hhi].
  assert (Hc : state = 0 \/ state = 1 \/ state = 2 \/ state = 3 \/
               state = 4 \/ state = 5) by lia.
  unfold case_body. rewrite H0, H1, H2.
  destruct Hc as [-> | [-> | [-> | [-> | [-> | ->]]]]]; reflexivity.
Qed.

Lemma loop_top_flags c :
  Reachable c -> snd c = LoopTop ->
  forall i, (i < 3)%nat -> pressed (buttons (fst c) !!! i) = 0.
Proof.
  induction 1 as [| e c c' Hr IH Hv Hstep]; intros Hpc i Hi.
  - destruct i as [| [| [| i]]]; [| | | lia]; reflexivity.
  - destruct c as [m pc]. destruct c' as [m' pc']. cbn [fst snd] in *. subst pc'.
    destruct (is_main e) eqn:He.
    + destruct e as [sample pins | | | |]; try discriminate He.
      cbn [step] in Hstep. destruct pc as [| [| s k]].
      * discriminate Hstep.
      * injection Hstep as <-.
        pose proof (Reachable_io_ok _ Hr) as (Hb & _). cbn [fst] in Hb.
        unfold buttons_ok in Hb. apply andb_prop in Hb as [Hlen _].
        apply Nat.eqb_eq in Hlen.
        apply clear_pressed_flags; assumption.
      * destruct (exec_stmt sample s m); cbn [bind] in Hstep; discriminate Hstep.
    + destruct (interrupt_frame e m pc m' LoopTop He Hstep) as (Hpc & Hb & _).
      rewrite Hb. apply IH; [symmetry; exact Hpc | exact Hi].
Qed.

(** X16. Every button event is consumed by the pass that polled it:
    whenever the main loop is back at its top, under every interleaving
    of the interrupt handlers, all three pressed flags are 0; and a pass
    that finds buttonFlag at 0 when it polls runs a case without an
    assignment to the mode, whatever the pins show. *)
Theorem loop_top_flags_consumed (c : Config) :
  Reachable c ->
  snd c = LoopTop ->
  (forall i, (i < 3)%nat -> pressed (buttons (fst c) !!! i) = 0) /\
  (buttonFlag (fst c) = 0 ->
   forall sample pins,
     exists k, step (EvMain sample pins) c = Ok (fst c, Handling k) /\
               transitions k = 0%nat).
Proof.
  intros Hr Hpc. pose proof (loop_top_flags c Hr Hpc) as Hflags.
  split; [exact Hflags |].
  intros Hf sample pins. destruct c as [m pc]. cbn [fst snd] in *. subst pc.
  cbn [step]. unfold poll_buttons. rewrite Hf. change (truthy 0) with false.
  cbv iota. eexists. split; [reflexivity |].
  apply case_body_idle.
  - pose proof (config_ok_mid _ (Reachable_config_ok _ Hr)) as H.
    unfold view_mid, blink_view in H. cbn [fst] in H.
    apply andb_prop in H as [H _]. apply andb_prop in H as [H _]. exact H.
  - unfold btn. rewrite Hflags by lia. reflexivity.
  - unfold btn. rewrite Hflags by lia. reflexivity.
  - unfold btn. rewrite Hflags by lia. reflexivity.
Qed.

Lemma loop_top_flags_consumed_witness :
  (forall i, (i < 3)%nat ->
     pressed (buttons (fst (config_after off_pass_with_tick)) !!! i) = 0) /\
  (buttonFlag (fst (config_after off_pass_with_tick)) = 0 ->
   forall sample pins,
     exists k, step (EvMain sample pins) (config_after off_pass_with_tick)
               = Ok (fst (config_after off_pass_with_tick), Handling k) /\
               transitions k = 0%nat).
Proof.
  apply (loop_top_flags_consumed (config_after off_pass_with_tick));
    [apply off_pass_with_tick_Reachable | vm_compute; reflexivity].
Defined.


Lemma switched_off_same j m m1 :
  switches m1 = switches m -> switched_off j m -> switched_off j m1.
Proof.
  unfold switches, switched_off. intros Heq H.
  injection Heq as Hen Ht1 Ht2. rewrite Hen, Ht1, Ht2. exact H.
Qed.

Lemma count_main_cons e es :
  count_main (e :: es) = ((if is_main e then 1 else 0) + count_main es)%nat.
Proof. unfold count_main. cbn [List.filter]. destruct (is_main e); reflexivity. Qed.

(** Inside the Off case, [j] of its five statements done: whatever
    interrupts fall in between, the rest ends with the switches off. *)
Lemma off_progress tail es :
  forall j m m' pc',
    (j <= 5)%nat ->
    switched_off j m ->
    run es (m, Handling (skipn j off_body ++ tail)) = Ok (m', pc') ->
    count_main es = (5 - j)%nat ->
    pc' = Handling tail /\ switched_off 5 m' /\ settled m' = settled m.
Proof.
  induction es as [| e es IH]; intros j m m' pc' Hj Hsw Hrun Hcount.
  - cbn [run] in Hrun. injection Hrun as <- <-.
    change (count_main []) with 0%nat in Hcount.
    assert (j = 5%nat) by lia. subst j.
    split; [reflexivity |]. split; [exact Hsw | reflexivity].
  - cbn [run] in Hrun. rewrite count_main_cons in Hcount.
    destruct (step e (m, Handling (skipn j off_body ++ tail)))
      as [[m1 pc1] | |] eqn:Hstep; cbn [bind] in Hrun; try discriminate Hrun.
    destruct (is_main e) eqn:He.
    + destruct e as [sample pins | | | |]; try discriminate He.
      assert (Hj4 : (j <= 4)%nat) by lia.
      destruct j as [| [| [| [| [| j]]]]]; [| | | | | lia];
        cbn [skipn off_body app step exec_stmt bind] in Hstep;
        injection Hstep as <- <-;
        match goal with
        | |- _ /\ _ /\ settled m' = settled m =>
            match type of Hrun with
            | run es (?m1, Handling ?k) = _ =>
                assert (Hset : settled m1 = settled m)
                  by (destruct m as [? [] ? ? ? ? [] [] ? ? ? ?]; reflexivity)
            end
        end.
      * match type of Hrun with
        | run es (?m1, _) = _ =>
            destruct (IH 1%nat m1 m' pc') as (Hpc & Hoff & Hs);
              [lia | split; intros; lia | exact Hrun | lia |]
        end.
        repeat split; try apply Hoff; congruence.
      * match type of Hrun with
        | run es (?m1, _) = _ =>
            destruct (IH 2%nat m1 m' pc') as (Hpc & Hoff & Hs);
              [lia | split; intros; lia | exact Hrun | lia |]
        end.
        repeat split; try apply Hoff; congruence.
      * match type of Hrun with
        | run es (?m1, _) = _ =>
            destruct (IH 3%nat m1 m' pc') as (Hpc & Hoff & Hs);
              [lia | split; [intros _; split; reflexivity | intros; lia]
               | exact Hrun | lia |]
        end.
        repeat split; try apply Hoff; congruence.
      * match type of Hrun with
        | run es (?m1, _) = _ =>
            destruct (IH 4%nat m1 m' pc') as (Hpc & Hoff & Hs);
              [lia
               | split; [intros _; apply Hsw; lia | intros _; reflexivity]
               | exact Hrun | lia |]
        end.
        repeat split; try apply Hoff; congruence.
      * match type of Hrun with
        | run es (?m1, _) = _ =>
            destruct (IH 5%nat m1 m' pc') as (Hpc & Hoff & Hs);
              [lia
               | split; [intros _; split; [apply Hsw; lia | reflexivity]
                        | intros _; apply Hsw; lia]
               | exact Hrun | lia |]
        end.
        repeat split; try apply Hoff; congruence.
    + destruct (interrupt_frame e m _ m1 pc1 He Hstep) as (-> & _ & Hs1 & Hw1).
      destruct (IH j m1 m' pc') as (Hpc & Hoff & Hs);
        [exact Hj | apply (switched_off_same j m m1 Hw1 Hsw) | exact Hrun | lia |].
      repeat split; try apply Hoff; congruence.
Qed.

Lemma case_body_off btns :
  exists tail, case_body OFF_MODE btns = off_body ++ tail /\
               forallb is_assign tail = true.
Proof.
  unfold case_body. cbn -[btn].
  destruct (btn btns 0); [| destruct (btn btns 1)];
    eexists; split; reflexivity.
Qed.

Lemma poll_buttons_settled pins m :
  settled (poll_buttons pins m) = settled m /\
  switches (poll_buttons pins m) = switches m.
Proof.
  unfold poll_buttons. destruct (truthy (buttonFlag m)); split; reflexivity.
Qed.

Lemma off_pass_from_top es :
  forall m m' pc',
    currentState m = OFF_MODE ->
    run es (m, LoopTop) = Ok (m', pc') ->
    count_main es = 6%nat ->
    (exists tail, pc' = Handling tail /\ forallb is_assign tail = true) /\
    switched_off 5 m' /\ settled m' = settled m.
Proof.
  induction es as [| e es IH]; intros m m' pc' Hst Hrun Hcount.
  - discriminate Hcount.
  - cbn [run] in Hrun. rewrite count_main_cons in Hcount.
    destruct (step e (m, LoopTop)) as [[m1 pc1] | |] eqn:Hstep;
      cbn [bind] in Hrun; try discriminate Hrun.
    destruct (is_main e) eqn:He.
    + destruct e as [sample pins | | | |]; try discriminate He.
      cbn [step] in Hstep. injection Hstep as <- <-.
      destruct (poll_buttons_settled pins m) as [Hs0 Hw0].
      assert (Hst0 : currentState (poll_buttons pins m) = OFF_MODE).
      { unfold settled in Hs0. injection Hs0 as -> _. exact Hst. }
      rewrite Hst0 in Hrun.
      destruct (case_body_off (buttons (poll_buttons pins m)))
        as (tail & Hbody & Htail).
      rewrite Hbody in Hrun.
      destruct (off_progress tail es 0%nat (poll_buttons pins m) m' pc')
        as (Hpc & Hoff & Hs);
        [lia | split; intros; lia | exact Hrun | lia |].
      split; [exists tail; split; assumption |].
      split; [exact Hoff | congruence].
    + destruct (interrupt_frame e m LoopTop m1 pc1 He Hstep) as (-> & _ & Hs1 & _).
      assert (Hst1 : currentState m1 = OFF_MODE).
      { unfold settled in Hs1. injection Hs1 as -> _. exact Hst. }
      destruct (IH m1 m' pc' Hst1 Hrun) as (Htail & Hoff & Hs); [lia |].
      split; [exact Htail |]. split; [exact Hoff | congruence].
Qed.

(** X25. A pass in mode Off under interrupts.  Whatever interrupt
    handlers run in between, once the pass has polled the buttons and run
    its five statements, blink is disabled and Timer1 and Timer2 are
    switched off; nothing was sent and nothing sampled, and the mode, the
    period, the base and blink duty cycles and the last sample are as
    before; only the assignment of the next mode can follow.  The LED is
    not part of this: [LED = 0] comes before stopTimer1(), and a Timer 1
    tick between the two (Timer1 still on, LED low) leaves the LED high
    when the pass is over, with Timer1 stopped and the mode Off. *)
Theorem Off_pass_under_interrupts :
  (forall es m m' pc',
     currentState m = OFF_MODE ->
     run es (m, LoopTop) = Ok (m', pc') ->
     count_main es = 6%nat ->
     (exists tail, pc' = Handling tail /\ forallb is_assign tail = true) /\
     blinkEnabled (pwmControl m') = 0 /\
     TON (timer1 m') = 0 /\ TON (timer2 m') = 0 /\
     currentState m' = OFF_MODE /\
     U2TX m' = U2TX m /\ ADON m' = ADON m /\ SAMP m' = SAMP m /\
     period (pwmControl m') = period (pwmControl m) /\
     baseDutyCycle (pwmControl m') = baseDutyCycle (pwmControl m) /\
     blinkDutyCycle (pwmControl m') = blinkDutyCycle (pwmControl m) /\
     adcValue (pwmControl m') = adcValue (pwmControl m)) /\
  (Reachable (config_after into_off_pass) /\
   currentState (fst (config_after into_off_pass)) = OFF_MODE /\
   snd (config_after into_off_pass)
   = Handling [SstopBlink; SstopTimer1; SstopTimer2] /\
   TON (timer1 (fst (config_after into_off_pass))) = 1 /\
   LED (fst (config_after into_off_pass)) = 0) /\
  (Reachable (config_after off_pass_with_tick) /\
   snd (config_after off_pass_with_tick) = LoopTop /\
   currentState (fst (config_after off_pass_with_tick)) = OFF_MODE /\
   TON (timer1 (fst (config_after off_pass_with_tick))) = 0 /\
   LED (fst (config_after off_pass_with_tick)) = 1).
Proof.
  split; [| split].
  - intros es m m' pc' Hst Hrun Hcount.
    destruct (off_pass_from_top es m m' pc' Hst Hrun Hcount)
      as (Htail & [Hoff3 Hoff4] & Hs).
    destruct (Hoff3 ltac:(lia)) as [Hen Ht2]. pose proof (Hoff4 ltac:(lia)) as Ht1.
    unfold settled in Hs.
    injection Hs as Hcs Htx Hon Hsa Hper Hbase Hbd Hadc.
    split; [exact Htail |]. repeat split; congruence.
  - split.
    + apply config_after_Reachable; [vm_compute; reflexivity |].
      eexists. vm_compute. reflexivity.
    + repeat split; vm_compute; reflexivity.
  - split; [apply off_pass_with_tick_Reachable |].
    repeat split; vm_compute; reflexivity.
Qed.
